(** * nvim-dbee adapters: the Mongo and DuckDB drivers

    A shallow embedding of [dbee/adapters/mongo.go] and of the DuckDB
    adapter, with the properties of their result streams, catalog
    listings and value envelope.

    Conventions of the embedding:
    - a Go package is a module ([core], [builders], [mongo], [url], [gob]);
      the methods of a receiver type are the functions of the module of that
      name, whose record is [t] ([mongoDriver.Query], [duckDriver.Structure],
      [mongoResponse.GobEncode]);
    - a Go function returning [(T, error)] returns an [outcome T]; a run-time
      panic (failed single-value type assertion, slice bounds) is the third
      constructor [Panic];
    - a method that assigns to a field of its pointer receiver returns the
      receiver next to its result;
    - a Go map is its list of entries in the order [range] visits them, so a
      statement over every list of entries holds for every iteration order. *)

From Stdlib Require Import List String Ascii ZArith Bool Arith Lia Permutation.
Import ListNotations.
Open Scope string_scope.
Open Scope list_scope.

Set Warnings "-register-all".

(** ** Errors, outcomes *)

(** Go [error] values: a message ([errors.New], [fmt.Errorf] without [%w])
    or a wrapped error ([fmt.Errorf] with [%w]). *)
Inductive error : Type :=
| Error (msg : string)
| Wrapped (prefix : string) (inner : error).

(** The text of an error, [err.Error()]. *)
Fixpoint errorText (e : error) : string :=
  match e with
  | Error msg => msg
  | Wrapped prefix inner => prefix ++ ": " ++ errorText inner
  end.

(** How a call ends: with a value and a nil error, with a non-nil error, or
    by panicking. *)
Inductive outcome (T : Type) : Type :=
| Return (t : T)
| Fail (err : error)
| Panic (msg : string).

Arguments Return {T} t.
Arguments Fail {T} err.
Arguments Panic {T} msg.

Definition bindO {T U} (m : outcome T) (k : T -> outcome U) : outcome U :=
  match m with
  | Return t => k t
  | Fail err => Fail err
  | Panic msg => Panic msg
  end.

Definition isPanic {T} (m : outcome T) : bool :=
  match m with
  | Panic _ => true
  | _ => false
  end.

(** ** Dynamic values

    [any], restricted to what flows through the adapters: the concrete types
    a Mongo reply decoded into [bson.M] can hold, the pointer to an envelope,
    and the nil interface. Integers and the bit patterns of doubles are [Z];
    byte strings are [string]. *)
Inductive any : Type :=
| Nil
| Bool (b : bool)
| Int32 (n : Z)
| Int64 (n : Z)
| Double (bits : Z)
| Str (s : string)
| ObjectID (hex : string)
| DateTime (ms : Z)
| Binary (subtype : Z) (data : string)
| Regex (pattern options : string)
| JavaScript (code : string)
| CodeWithScope (code : string) (scope : any)
| Timestamp (t i : Z)
| Decimal128 (h l : Z)
| MinKey
| MaxKey
| Undefined
| DBPointer (db : string) (pointer : string)
| Symbol (s : string)
| A (items : list any)
| M (fields : list (string * any))
| D (elems : list (string * any))
| Response (v : any).

(** [m[key]] in the comma-ok form: the value and whether the key is there. *)
Fixpoint index (m : list (string * any)) (key : string) : any * bool :=
  match m with
  | [] => (Nil, false)
  | (k, v) :: rest => if String.eqb k key then (v, true) else index rest key
  end.

(** [v.(bson.M)], the single-value form: panics on any other dynamic type. *)
Definition assertM (v : any) : outcome (list (string * any)) :=
  match v with
  | M m => Return m
  | _ => Panic "interface conversion: interface {} is not primitive.M"
  end.

(** [v.(bson.A)], the comma-ok form. *)
Definition assertA (v : any) : list any * bool :=
  match v with
  | A l => (l, true)
  | _ => ([], false)
  end.

(** [v.(string)], the single-value form. *)
Definition assertString (v : any) : outcome string :=
  match v with
  | Str s => Return s
  | _ => Panic "interface conversion: interface {} is not string"
  end.

(** [row[i]]: panics out of range. *)
Definition cell (row : list any) (i : nat) : outcome any :=
  match nth_error row i with
  | Some v => Return v
  | None => Panic "index out of range"
  end.

(** [s[1:]]: panics when [s] is empty, otherwise drops the first byte. *)
Definition sliceFrom1 (s : string) : outcome string :=
  match s with
  | EmptyString => Panic "slice bounds out of range [1:0]"
  | String _ rest => Return rest
  end.

(** ** Function literals that emit

    A function handed a [yield] callback writes to its emission channel and
    then returns: the values passed to [yield], in order, and how the
    function ended. *)
Definition producer (T : Type) : Type := (list any * outcome T)%type.

Definition retP {T} (t : T) : producer T := ([], Return t).
Definition yield (v : any) : producer unit := ([v], Return tt).
Definition failP {T} (err : error) : producer T := ([], Fail err).
Definition liftP {T} (m : outcome T) : producer T := ([], m).

Definition bindP {T U} (m : producer T) (k : T -> producer U) : producer U :=
  match m with
  | (out, Return t) => let (out', r) := k t in (out ++ out', r)
  | (out, Fail err) => (out, Fail err)
  | (out, Panic msg) => (out, Panic msg)
  end.

Notation "x <- m ;; k" := (bindP m (fun x => k))
  (at level 61, m at next level, right associativity).
Notation "m ;;; k" := (bindP m (fun _ => k))
  (at level 61, right associativity).

(** [for _, x := range xs { body }] inside such a function. *)
Fixpoint forRange {X} (xs : list X) (body : X -> producer unit) : producer unit :=
  match xs with
  | [] => retP tt
  | x :: rest => body x ;;; forRange rest body
  end.

(** ** Package core *)

(** The declarations of package [core] the adapters use are not among the
    sources; they follow the data model of the spec. *)
Module core.

(** Modelled from the spec: the declaration of [Row], missing from the
    sources; an ordered sequence of opaque cell values. *)
Definition Row : Type := list any.

(** Modelled from the spec: the declaration of [Header], missing from the
    sources; an ordered sequence of column names. *)
Definition Header : Type := list string.

(** Modelled from the spec: the discriminator of the metadata, missing from
    the sources; typed or schema-less. *)
Inductive SchemaType : Type := Typed | SchemaLess.

(** Modelled from the spec: the declaration of [Meta], missing from the
    sources; a record holding the discriminator. *)
Record Meta : Type := { SchemaType_ : SchemaType }.

(** Modelled from the spec: the kinds of catalog entries, missing from the
    sources; a small closed set with the table kind in it. *)
Inductive StructureType : Type :=
| StructureTypeNone
| StructureTypeTable
| StructureTypeView.

(** Modelled from the spec: the declaration of [Structure], missing from the
    sources; a catalog entry with its name, schema and kind. *)
Record Structure : Type := {
  Name : string;
  Schema : string;
  Type_ : StructureType
}.

End core.

(** ** Package builders *)

Module builders.

(** The world outside the process, as far as the pool of connections goes:
    [Conn] hands out connection [fresh]; [live] holds the connections out of
    the pool and not closed; [closes] logs every [con.Close()]. *)
Record World : Type := {
  fresh : nat;
  live : list nat;
  closes : list nat
}.

Definition conClose (con : nat) (w : World) : World :=
  {| fresh := fresh w;
     live := remove Nat.eq_dec con (live w);
     closes := con :: closes w |}.

Definition closeCount (con : nat) (w : World) : nat :=
  count_occ Nat.eq_dec (closes w) con.

(** Modelled from the spec: the pull pair returned by [NextSingle] and
    [NextYield], which are not among the sources. [Single] holds one
    precomputed value and whether it is still to be handed out. [Yield]
    holds a producer that has not been driven; the first use drives it to
    completion and leaves a [Buffer] of the emitted items in arrival order,
    with the producer's error, if any, kept for the pull that finds the
    buffer empty (the scenario of three items and an error). Each item is
    handed out as a one-cell row, the pull function returning a [core.Row]
    for every [any] passed to [yield]. *)
Inductive iterator : Type :=
| Single (v : any) (has : bool)
| Yield (fn : producer unit)
| Buffer (buf : list core.Row) (err : option error).

(** Modelled from the spec: the distinguishable error of a pull past the
    end, missing from the sources. *)
Definition ErrExhausted : error := Error "no next row".

(** Modelled from the spec: the first use of a pull pair, missing from the
    sources; it runs a producer not yet driven to completion and buffers
    what it emitted. *)
Definition drive (it : iterator) : outcome iterator :=
  match it with
  | Yield (out, Return _) => Return (Buffer (map (fun v => [v]) out) None)
  | Yield (out, Fail err) => Return (Buffer (map (fun v => [v]) out) (Some err))
  | Yield (_, Panic msg) => Panic msg
  | _ => Return it
  end.

(** Modelled from the spec: the [hasNext] of a pull pair, missing from the
    sources; true when a value is still to be handed out, and never an
    error. *)
Definition hasNextI (it : iterator) : outcome bool * iterator :=
  match drive it with
  | Return (Single _ has) => (Return has, it)
  | Return (Buffer buf err) =>
      (Return (negb (match buf with [] => true | _ => false end)), Buffer buf err)
  | Return (Yield fn) => (Return false, Yield fn)
  | Fail err => (Fail err, it)
  | Panic msg => (Panic msg, it)
  end.

(** Modelled from the spec: the [next] of a pull pair, missing from the
    sources; the next buffered row, then the producer's error if it returned
    one, then the exhaustion error. *)
Definition nextI (it : iterator) : outcome core.Row * iterator :=
  match drive it with
  | Return (Single v true) => (Return [v], Single v false)
  | Return (Single v false) => (Fail ErrExhausted, Single v false)
  | Return (Buffer (r :: rest) err) => (Return r, Buffer rest err)
  | Return (Buffer [] (Some e)) => (Fail e, Buffer [] None)
  | Return (Buffer [] None) => (Fail ErrExhausted, Buffer [] None)
  | Return (Yield fn) => (Fail ErrExhausted, Yield fn)
  | Fail err => (Fail err, it)
  | Panic msg => (Panic msg, it)
  end.

(** Modelled from the spec: [NextSingle], missing from the sources; the
    pull pair of exactly one precomputed value. *)
Definition NextSingle (v : any) : iterator := Single v true.

(** Modelled from the spec: [NextYield], missing from the sources; the pull
    pair of an emitting function. *)
Definition NextYield (fn : producer unit) : iterator := Yield fn.

(** Modelled from the spec: the result stream and its builder, which are not
    among the sources. The stream owns the pull pair, the header, the
    metadata and an optional cleanup action; [Close] runs the cleanup action
    unless it has run, and a [Next] that finds no row (exhaustion or a source
    error) releases the stream the same way. [HasNext] changes nothing but
    the buffering of a producer not yet driven. *)
Record ResultStream : Type := {
  iter : iterator;
  header : core.Header;
  meta : core.Meta;
  callback : option (World -> World);
  released : bool
}.

(** Modelled from the spec: the builder of a stream and its setters, missing
    from the sources; they accumulate the pull pair, the header and the
    metadata, and [Build] hands the stream out. *)
Definition NewResultStreamBuilder : ResultStream :=
  {| iter := Buffer [] None; header := [];
     meta := {| core.SchemaType_ := core.Typed |};
     callback := None; released := false |}.

(** Modelled from the spec: setter of the pull pair. *)
Definition WithNextFunc (it : iterator) (b : ResultStream) : ResultStream :=
  {| iter := it; header := header b; meta := meta b;
     callback := callback b; released := released b |}.

(** Modelled from the spec: setter of the header. *)
Definition WithHeader (h : core.Header) (b : ResultStream) : ResultStream :=
  {| iter := iter b; header := h; meta := meta b;
     callback := callback b; released := released b |}.

(** Modelled from the spec: setter of the metadata. *)
Definition WithMeta (m : core.Meta) (b : ResultStream) : ResultStream :=
  {| iter := iter b; header := header b; meta := m;
     callback := callback b; released := released b |}.

(** Modelled from the spec: the end of the building. *)
Definition Build (b : ResultStream) : ResultStream := b.

(** Modelled from the spec: [SetCallback], missing from the sources; it
    registers the cleanup action of the stream. *)
Definition SetCallback (cb : World -> World) (s : ResultStream) : ResultStream :=
  {| iter := iter s; header := header s; meta := meta s;
     callback := Some cb; released := released s |}.

(** Modelled from the spec: running the optional cleanup action. *)
Definition runCallback (cb : option (World -> World)) (w : World) : World :=
  match cb with
  | Some f => f w
  | None => w
  end.

(** Modelled from the spec: [Close], missing from the sources; it triggers
    the cleanup action once, later calls doing nothing. *)
Definition Close (s : ResultStream) (w : World) : ResultStream * World :=
  if released s then (s, w)
  else ({| iter := iter s; header := header s; meta := meta s;
           callback := callback s; released := true |},
        runCallback (callback s) w).

(** Modelled from the spec: [HasNext], missing from the sources; it does not
    move the stream. *)
Definition HasNext (s : ResultStream) : outcome bool * ResultStream :=
  let (r, it) := hasNextI (iter s) in (r, WithNextFunc it s).

(** Modelled from the spec: [Next], missing from the sources; it advances by
    one row, or surfaces the source's error or the exhaustion error and
    releases the stream. *)
Definition Next (s : ResultStream) (w : World)
  : outcome core.Row * (ResultStream * World) :=
  let (r, it) := nextI (iter s) in
  match r with
  | Return row => (Return row, (WithNextFunc it s, w))
  | Fail err => (Fail err, Close (WithNextFunc it s) w)
  | Panic msg => (Panic msg, (WithNextFunc it s, w))
  end.

(** What the database answers to one query: the column names, the records
    and the error that ends the scan, if any. *)
Record sqlRows : Type := {
  columns : core.Header;
  records : list core.Row;
  scanErr : option error
}.

(** The pool behind [*builders.Client]: whether [Conn] fails, and what a
    connection answers to a query. *)
Record Client : Type := {
  connErr : option error;
  answer : string -> outcome sqlRows
}.

(** Modelled from the spec: [Client.Conn], missing from the sources; it
    takes a connection out of the pool or fails. *)
Definition Conn (c : Client) (w : World) : outcome nat * World :=
  match connErr c with
  | Some err => (Fail err, w)
  | None =>
      (Return (fresh w),
       {| fresh := S (fresh w); live := fresh w :: live w; closes := closes w |})
  end.

(** Modelled from the spec: the [Query] of a connection, missing from the
    sources; it builds a fresh stream over the answer, with no cleanup action
    yet. *)
Definition conQuery (c : Client) (con : nat) (query : string) : outcome ResultStream :=
  bindO (answer c query) (fun rows =>
    Return (Build (WithHeader (columns rows)
                     (WithNextFunc (Buffer (records rows) (scanErr rows))
                        NewResultStreamBuilder)))).

End builders.

Import builders.

(** ** Consumers of a stream *)

(** What a consumer can do with a stream, and what it observes. A panic
    unwinds the consumer: the operations after it do not run. *)
Inductive op : Type := OpHasNext | OpNext | OpClose.

Inductive event : Type :=
| EvHasNext (r : outcome bool)
| EvNext (r : outcome core.Row)
| EvClose.

Fixpoint run (ops : list op) (s : ResultStream) (w : World)
  : list event * (ResultStream * World) :=
  match ops with
  | [] => ([], (s, w))
  | OpHasNext :: rest =>
      let (r, s1) := HasNext s in
      if isPanic r then ([EvHasNext r], (s1, w))
      else let (evs, sw) := run rest s1 w in (EvHasNext r :: evs, sw)
  | OpNext :: rest =>
      let '(r, (s1, w1)) := Next s w in
      if isPanic r then ([EvNext r], (s1, w1))
      else let (evs, sw) := run rest s1 w1 in (EvNext r :: evs, sw)
  | OpClose :: rest =>
      let (s1, w1) := Close s w in
      let (evs, sw) := run rest s1 w1 in (EvClose :: evs, sw)
  end.

(** The rows a run handed out. *)
Fixpoint yielded (evs : list event) : list core.Row :=
  match evs with
  | [] => []
  | EvNext (Return row) :: rest => row :: yielded rest
  | _ :: rest => yielded rest
  end.


(** ** The libraries behind the Mongo adapter *)

(** A regular-expression engine for the server: the fragment of its pattern
    language made of literal characters, escaped punctuation, the dot and the
    postfix operators [*], [+] and [?]. A pattern outside the fragment does
    not compile here. *)
Module Regexp.

Inductive atom : Type := Lit (c : ascii) | Dot.
Inductive quant : Type := One | Star | Plus | Opt.
Inductive token : Type := TAtom (a : atom) | TQuant (q : quant).

Definition isIn (c : ascii) (set : string) : bool :=
  existsb (Ascii.eqb c) (list_ascii_of_string set).

Definition isMeta (c : ascii) : bool := isIn c "\^$.|?*+()[]{}".

Definition isAlnum (c : ascii) : bool :=
  let n := nat_of_ascii c in
  (Nat.leb 48 n && Nat.leb n 57) || (Nat.leb 65 n && Nat.leb n 90)
  || (Nat.leb 97 n && Nat.leb n 122).

Definition quantOf (c : ascii) : option quant :=
  if Ascii.eqb c "*"%char then Some Star
  else if Ascii.eqb c "+"%char then Some Plus
  else if Ascii.eqb c "?"%char then Some Opt
  else None.

Fixpoint tokens (p : list ascii) : option (list token) :=
  match p with
  | [] => Some []
  | c :: rest =>
      if Ascii.eqb c "\"%char then
        match rest with
        | e :: rest' =>
            if isAlnum e then None
            else option_map (cons (TAtom (Lit e))) (tokens rest')
        | [] => None
        end
      else if Ascii.eqb c "."%char then option_map (cons (TAtom Dot)) (tokens rest)
      else match quantOf c with
           | Some q => option_map (cons (TQuant q)) (tokens rest)
           | None =>
               if isMeta c then None
               else option_map (cons (TAtom (Lit c))) (tokens rest)
           end
  end.

Fixpoint items (ts : list token) : option (list (atom * quant)) :=
  match ts with
  | [] => Some []
  | TQuant _ :: _ => None
  | TAtom a :: rest =>
      match rest with
      | TQuant q :: rest' => option_map (cons (a, q)) (items rest')
      | _ => option_map (cons (a, One)) (items rest)
      end
  end.

Definition parse (pattern : string) : option (list (atom * quant)) :=
  match tokens (list_ascii_of_string pattern) with
  | Some ts => items ts
  | None => None
  end.

Definition atomOk (a : atom) (c : ascii) : bool :=
  match a with
  | Lit l => Ascii.eqb l c
  | Dot => negb (Ascii.eqb c (ascii_of_nat 10))
  end.

(** Does the pattern match a prefix of the subject. *)
Fixpoint matchHere (re : list (atom * quant)) (s : list ascii) : bool :=
  match re with
  | [] => true
  | (a, q) :: re' =>
      let star :=
        fix star (s : list ascii) : bool :=
          matchHere re' s ||
          match s with
          | c :: s' => atomOk a c && star s'
          | [] => false
          end in
      match q with
      | One => match s with c :: s' => atomOk a c && matchHere re' s' | [] => false end
      | Opt => matchHere re' s ||
               match s with c :: s' => atomOk a c && matchHere re' s' | [] => false end
      | Star => star s
      | Plus => match s with c :: s' => atomOk a c && star s' | [] => false end
      end
  end.

(** Does the pattern match somewhere in the subject. *)
Fixpoint search (re : list (atom * quant)) (s : list ascii) : bool :=
  matchHere re s ||
  match s with
  | _ :: s' => search re s'
  | [] => false
  end.

Definition compile (pattern : string) : option (string -> bool) :=
  match parse pattern with
  | Some re => Some (fun subject => search re (list_ascii_of_string subject))
  | None => None
  end.

End Regexp.

(** The driver library [go.mongodb.org/mongo-driver/mongo], as the adapter
    sees a deployment through it. *)
Module mongo.

(** Filters handed to [ListDatabaseNames]: the empty document, and the
    document asking for names that the pattern does not match, [$not] of
    [$regex]. *)
Inductive filter : Type :=
| FilterAll
| FilterNameNotRegex (pattern : string).

(** The server behind a [*mongo.Client]: the database names it holds (or why
    it cannot be asked), its regular-expression engine ([None] for a pattern
    that does not compile, otherwise the unanchored match of a name), its
    collections per database and its replies to commands. *)
Record Client : Type := {
  databaseNames : outcome (list string);
  regexCompile : string -> option (string -> bool);
  collectionNames : string -> outcome (list string);
  runCommand : string -> any -> outcome (list (string * any))
}.

(** [c.ListDatabaseNames(ctx, filter)]: the server applies the filter to its
    names. *)
Definition ListDatabaseNames (c : Client) (f : filter) : outcome (list string) :=
  bindO (databaseNames c) (fun all =>
    match f with
    | FilterAll => Return all
    | FilterNameNotRegex pattern =>
        match regexCompile c pattern with
        | Some matches => Return (List.filter (fun name => negb (matches name)) all)
        | None => Fail (Error "Regular expression is invalid")
        end
    end).

(** [c.Database(dbName).ListCollectionNames(ctx, bson.D{})]. *)
Definition ListCollectionNames (c : Client) (dbName : string) : outcome (list string) :=
  collectionNames c dbName.

(** [c.Database(dbName).RunCommand(ctx, command).Decode(&resp)]. *)
Definition RunCommand (c : Client) (dbName : string) (command : any)
  : outcome (list (string * any)) :=
  runCommand c dbName command.

End mongo.

(** [net/url]: of a parsed URL only the path is read. *)
Module url.

Record URL : Type := { Path : string }.

End url.

(** [encoding/gob] at the level the envelope uses it. A gob stream is
    represented by what it carries, not by its bytes: the type the encoder
    announced for the top-level value, and the value. Interface-typed
    positions inside a value (the elements of [bson.A], [bson.M] and [bson.D],
    the scope of a [CodeWithScope]) are sent under the registered name of
    their concrete type. *)
Module gob.

Inductive gotype : Type :=
| TyBool | TyInt32 | TyInt64 | TyFloat64 | TyString
| TyObjectID | TyDateTime | TyBinary | TyRegex | TyJavaScript
| TyCodeWithScope | TyTimestamp | TyDecimal128 | TyMinKey | TyMaxKey
| TyUndefined | TyDBPointer | TySymbol
| TyA | TyM | TyD | TyMongoResponsePtr.

Definition gotype_eq_dec (a b : gotype) : {a = b} + {a <> b}.
Proof. decide equality. Defined.

Definition typeOf (v : any) : option gotype :=
  match v with
  | Nil => None
  | Bool _ => Some TyBool
  | Int32 _ => Some TyInt32
  | Int64 _ => Some TyInt64
  | Double _ => Some TyFloat64
  | Str _ => Some TyString
  | ObjectID _ => Some TyObjectID
  | DateTime _ => Some TyDateTime
  | Binary _ _ => Some TyBinary
  | Regex _ _ => Some TyRegex
  | JavaScript _ => Some TyJavaScript
  | CodeWithScope _ _ => Some TyCodeWithScope
  | Timestamp _ _ => Some TyTimestamp
  | Decimal128 _ _ => Some TyDecimal128
  | MinKey => Some TyMinKey
  | MaxKey => Some TyMaxKey
  | Undefined => Some TyUndefined
  | DBPointer _ _ => Some TyDBPointer
  | Symbol _ => Some TySymbol
  | A _ => Some TyA
  | M _ => Some TyM
  | D _ => Some TyD
  | Response _ => Some TyMongoResponsePtr
  end.

(** The basic types gob registers by itself. *)
Definition registerBasics : list gotype :=
  [TyBool; TyInt32; TyInt64; TyFloat64; TyString].

Definition registered (reg : list gotype) (t : gotype) : bool :=
  if in_dec gotype_eq_dec t reg then true else false.

(** The name a type is printed under in the encoder's errors. *)
Definition typeName (t : gotype) : string :=
  match t with
  | TyBool => "bool"
  | TyInt32 => "int32"
  | TyInt64 => "int64"
  | TyFloat64 => "float64"
  | TyString => "string"
  | TyObjectID => "primitive.ObjectID"
  | TyDateTime => "primitive.DateTime"
  | TyBinary => "primitive.Binary"
  | TyRegex => "primitive.Regex"
  | TyJavaScript => "primitive.JavaScript"
  | TyCodeWithScope => "primitive.CodeWithScope"
  | TyTimestamp => "primitive.Timestamp"
  | TyDecimal128 => "primitive.Decimal128"
  | TyMinKey => "primitive.MinKey"
  | TyMaxKey => "primitive.MaxKey"
  | TyUndefined => "primitive.Undefined"
  | TyDBPointer => "primitive.DBPointer"
  | TySymbol => "primitive.Symbol"
  | TyA => "primitive.A"
  | TyM => "primitive.M"
  | TyD => "primitive.D"
  | TyMongoResponsePtr => "adapters.mongoResponse"
  end.

(** The encoder's errors: a nil value at top level; a value at an
    interface-typed position whose concrete type was not registered; a struct
    type with fields none of which is exported. *)
Definition ErrNilValue : error := Error "gob: cannot encode nil value".

Definition ErrNotRegistered (t : gotype) : error :=
  Error ("gob: type not registered for interface: " ++ typeName t).

Definition ErrNoExportedFields (t : gotype) : error :=
  Error ("gob: type " ++ typeName t ++ " has no exported fields").

Section FirstError.

Context {X : Type}.
Variable check : X -> option error.

(** The encoder stops at the first element it cannot send. *)
Fixpoint firstError (l : list X) : option error :=
  match l with
  | [] => None
  | x :: rest =>
      match check x with
      | Some err => Some err
      | None => firstError rest
      end
  end.

End FirstError.

Section EncodeValue.

(** The encoding of a value at an interface-typed position. *)
Variable atInterface : any -> option error.

(** The error, if any, of encoding a value whose concrete type the encoder
    knows. The elements of [bson.A], [bson.M] and [bson.D] and the scope of a
    [CodeWithScope] are interface-typed and visited in order (a document is
    listed in the order the encoder takes its keys). [Decimal128] is a struct
    of two unexported words with no encoding method of its own: the encoder
    refuses it. The structs without any field ([MinKey], [MaxKey],
    [Undefined]) are sent empty. An envelope is sent through its own
    [GobEncode], a new encoder on the wrapped value as a top-level value. *)
Fixpoint encodeValue (v : any) : option error :=
  match v with
  | A items => firstError atInterface items
  | M fields => firstError (fun kv => atInterface (snd kv)) fields
  | D elems => firstError (fun kv => atInterface (snd kv)) elems
  | CodeWithScope _ scope => atInterface scope
  | Decimal128 _ _ => Some (ErrNoExportedFields TyDecimal128)
  | Response inner =>
      match inner with
      | Nil => Some ErrNilValue
      | _ => encodeValue inner
      end
  | _ => None
  end.

End EncodeValue.

(** The error, if any, of encoding [v] at an interface-typed position: a nil
    interface goes out as an empty name; any other value needs its concrete
    type registered, the check that comes first, and is then encoded under
    that type. *)
Fixpoint encodeInterface (reg : list gotype) (v : any) {struct v} : option error :=
  match typeOf v with
  | None => None
  | Some t =>
      if registered reg t then encodeValue (encodeInterface reg) v
      else Some (ErrNotRegistered t)
  end.

(** Can the decoder rebuild [v] at an interface-typed position: the name it
    arrives under must be registered, and so for the positions inside it. An
    envelope is rebuilt by its own [GobDecode], which never succeeds (see
    [DecodeInterface]). *)
Fixpoint receivable (reg : list gotype) (v : any) : bool :=
  match v with
  | Nil => true
  | A items => registered reg TyA && forallb (receivable reg) items
  | M fields => registered reg TyM && forallb (fun kv => receivable reg (snd kv)) fields
  | D elems => registered reg TyD && forallb (fun kv => receivable reg (snd kv)) elems
  | CodeWithScope _ scope => registered reg TyCodeWithScope && receivable reg scope
  | Response _ => false
  | _ => match typeOf v with Some t => registered reg t | None => true end
  end.


Inductive wiretype : Type :=
| WireInterface
| WireConcrete (t : gotype).

Record message : Type := { sent : wiretype; body : any }.

(** [enc.Encode(e)] with [e] an interface value passed as it is: the encoder
    sees the concrete value, announces its concrete type and sends it. *)
Definition Encode (reg : list gotype) (e : any) : outcome message :=
  match typeOf e with
  | None => Fail ErrNilValue
  | Some t =>
      match encodeValue (encodeInterface reg) e with
      | Some err => Fail err
      | None => Return {| sent := WireConcrete t; body := e |}
      end
  end.

Definition ErrLocalInterface : error :=
  Error "gob: local interface type *interface {} can only be decoded from remote interface type".

(** [dec.Decode(&x)] with [x] an interface variable: only a value sent as an
    interface fits, and the name it was sent under must be registered. *)
Definition DecodeInterface (reg : list gotype) (buf : message) : outcome any :=
  match sent buf with
  | WireConcrete _ => Fail ErrLocalInterface
  | WireInterface =>
      if receivable reg (body buf) then Return (body buf)
      else Fail (Error "gob: name not registered for interface")
  end.

End gob.

(** ** mongo.go *)

(** [mongoResponse] wraps one reply value to stringify it. *)
Module mongoResponse.

Record t : Type := { value : any }.

Section Text.

(** [json.Marshal], [json.MarshalIndent] and [fmt.Sprint], with the results
    of their Go signatures. *)
Variable jsonMarshal : any -> list Byte.byte + error.
Variable jsonMarshalIndent : any -> string -> string -> list Byte.byte + error.
Variable fmtSprint : any -> string.

Definition String_ (mr : t) : string :=
  match jsonMarshalIndent (value mr) EmptyString "  " with
  | inr _ => fmtSprint (value mr)
  | inl parsed => string_of_list_byte parsed
  end.

Definition MarshalJSON (mr : t) : list Byte.byte + error :=
  jsonMarshal (value mr).

End Text.

Section Binary.

(** The types registered with gob when the method runs. *)
Variable registry : list gob.gotype.

Definition GobEncode (mr : t) : outcome gob.message :=
  gob.Encode registry (value mr).

Definition GobDecode (mr : t) (buf : gob.message) : outcome unit * t :=
  match gob.DecodeInterface registry buf with
  | Return v => (Return tt, {| value := v |})
  | Fail err => (Fail err, mr)
  | Panic msg => (Panic msg, mr)
  end.

End Binary.

End mongoResponse.

Definition newMongoResponse (val : any) : mongoResponse.t :=
  {| mongoResponse.value := val |}.

(** A [*mongoResponse] as a row cell or as a value handed to [yield]. *)
Definition toAny (mr : mongoResponse.t) : any := Response (mongoResponse.value mr).

(** The calls of [gob.Register] in [init], in order; the lines commented out
    in the source (DateTime, JavaScript, MinKey, MaxKey, Undefined, Symbol)
    are absent. *)
Definition init : list gob.gotype :=
  [gob.TyMongoResponsePtr; gob.TyA; gob.TyM; gob.TyD; gob.TyObjectID; gob.TyBinary;
   gob.TyRegex; gob.TyCodeWithScope; gob.TyTimestamp; gob.TyDecimal128; gob.TyDBPointer].

(** What gob knows once the process has started. *)
Definition registry : list gob.gotype := gob.registerBasics ++ init.

(** [json.Marshal] on a value that has a [MarshalJSON] method: the method's
    bytes go through the library's compaction, its error is wrapped. *)
Definition jsonOfMarshaler (compact : list Byte.byte -> list Byte.byte + error)
    (m : list Byte.byte + error) : list Byte.byte + error :=
  match m with
  | inl b => compact b
  | inr err =>
      inr (Wrapped "json: error calling MarshalJSON for type *adapters.mongoResponse" err)
  end.

Definition quote : string := String (ascii_of_nat 34) EmptyString.

Module mongoDriver.

Record t : Type := {
  c : mongo.Client;
  dbName : string
}.

Definition getCurrentDatabase (d : t) : outcome string * t :=
  if negb (String.eqb (dbName d) EmptyString) then (Return (dbName d), d)
  else
    match mongo.ListDatabaseNames (c d) mongo.FilterAll with
    | Fail err => (Fail (Wrapped "failed to select default database" err), d)
    | Panic msg => (Panic msg, d)
    | Return dbs =>
        match dbs with
        | [] => (Fail (Error "no databases found"), d)
        | db0 :: _ => (Return db0, {| c := c d; dbName := db0 |})
        end
    end.

(** The function literal handed to [NextYield] in [Query]. [ok] is the flag
    of the lookup of the cursor field, the variable the literal tests after
    its single-value assertion. *)
Definition cursorProducer (cur : any) (ok : bool) : producer unit :=
  cursor <- liftP (assertM cur) ;;
  if negb ok then failP (Error "type assertion for cursor object failed")
  else
    forRange cursor (fun kb =>
      let (batch, ok) := assertA (snd kb) in
      if negb ok then retP tt
      else forRange batch (fun item => yield (toAny (newMongoResponse item)))) ;;;
    retP tt.

(** The tail of [Query], from the lookup of the cursor field to [Build]:
    the stream made of a decoded reply. *)
Definition replyStream (resp : list (string * any)) : ResultStream :=
  let (cur, ok) := index resp "cursor" in
  let it :=
    if ok then builders.NextYield (cursorProducer cur ok)
    else builders.NextSingle (toAny (newMongoResponse (M resp))) in
  builders.Build
    (builders.WithMeta {| core.SchemaType_ := core.SchemaLess |}
       (builders.WithHeader ["Reply"]
          (builders.WithNextFunc it builders.NewResultStreamBuilder))).

Definition marshalCommandMessage (query : string) (err : error) : string :=
  "cannot marshal command: " ++ quote ++ query ++ quote ++ " to bson: " ++ errorText err.

Section Query.

(** [bson.UnmarshalExtJSON] of the query text into a command. *)
Variable UnmarshalExtJSON : string -> outcome any.

Definition Query (d : t) (query : string) : outcome ResultStream * t :=
  match getCurrentDatabase d with
  | (Fail err, d) => (Fail err, d)
  | (Panic msg, d) => (Panic msg, d)
  | (Return dbName, d) =>
      match UnmarshalExtJSON query with
      | Fail err => (Fail (Error (marshalCommandMessage query err)), d)
      | Panic msg => (Panic msg, d)
      | Return command =>
          match mongo.RunCommand (c d) dbName command with
          | Fail err => (Fail err, d)
          | Panic msg => (Panic msg, d)
          | Return resp => (Return (replyStream resp), d)
          end
      end
  end.

End Query.

Definition Structure (d : t) : outcome (list core.Structure) * t :=
  match getCurrentDatabase d with
  | (Fail err, d) => (Fail err, d)
  | (Panic msg, d) => (Panic msg, d)
  | (Return dbName, d) =>
      match mongo.ListCollectionNames (c d) dbName with
      | Fail err => (Fail err, d)
      | Panic msg => (Panic msg, d)
      | Return collections =>
          let structure :=
            fold_left (fun structure coll =>
                         structure ++ [{| core.Name := coll;
                                          core.Schema := EmptyString;
                                          core.Type_ := core.StructureTypeTable |}])
                      collections [] in
          (Return structure, d)
      end
  end.

Definition ListDatabases (d : t) : outcome (string * list string) * t :=
  match getCurrentDatabase d with
  | (Fail err, d) => (Fail err, d)
  | (Panic msg, d) => (Panic msg, d)
  | (Return dbName, d) =>
      match mongo.ListDatabaseNames (c d) (mongo.FilterNameNotRegex dbName) with
      | Fail err => (Fail (Wrapped "failed to retrieve database names" err), d)
      | Panic msg => (Panic msg, d)
      | Return all => (Return (dbName, all), d)
      end
  end.

Definition SelectDatabase (d : t) (name : string) : outcome unit * t :=
  (Return tt, {| c := c d; dbName := name |}).

End mongoDriver.

Module Mongo.

Section Connect.

(** [url.Parse], and [options.Client().ApplyURI] followed by
    [mongo.Connect]. *)
Variable urlParse : string -> outcome url.URL.
Variable mongoConnect : string -> outcome mongo.Client.

Definition Connect (rawURL : string) : outcome mongoDriver.t :=
  match urlParse rawURL with
  | Fail err => Fail (Wrapped "mongo: invalid url" err)
  | Panic msg => Panic msg
  | Return u =>
      match mongoConnect rawURL with
      | Fail err => Fail err
      | Panic msg => Panic msg
      | Return client =>
          bindO (sliceFrom1 (url.Path u)) (fun name =>
            Return {| mongoDriver.c := client; mongoDriver.dbName := name |})
      end
  end.

End Connect.

End Mongo.

(** ** The DuckDB adapter *)

Module duckDriver.

Record t : Type := { c : builders.Client }.

(** [cb] is the closure over [con]; the deferred function runs when [Query]
    returns and calls [cb] if [err], last assigned by the query on the
    connection, is not nil. *)
Definition Query (d : t) (query : string) (w : World) : outcome ResultStream * World :=
  match builders.Conn (c d) w with
  | (Fail err, w) => (Fail err, w)
  | (Panic msg, w) => (Panic msg, w)
  | (Return con, w) =>
      let cb := conClose con in
      let deferred (err : option error) (w : World) : World :=
        match err with
        | Some _ => cb w
        | None => w
        end in
      match builders.conQuery (c d) con query with
      | Fail err => (Fail err, deferred (Some err) w)
      | Panic msg => (Panic msg, deferred None w)
      | Return rows => (Return (builders.SetCallback cb rows), deferred None w)
      end
  end.

(** The loop of [Structure]; [fuel] bounds the iterations, [None] when it
    runs out. *)
Fixpoint structureLoop (fuel : nat) (rows : ResultStream) (w : World)
    (schema : list core.Structure)
  : option (outcome (list core.Structure) * (ResultStream * World)) :=
  match fuel with
  | O => None
  | S fuel =>
      match builders.HasNext rows with
      | (Panic msg, rows) => Some (Panic msg, (rows, w))
      | (Fail err, rows) => Some (Fail err, (rows, w))
      | (Return false, rows) => Some (Return schema, (rows, w))
      | (Return true, rows) =>
          match builders.Next rows w with
          | (Panic msg, rw) => Some (Panic msg, rw)
          | (Fail err, rw) => Some (Fail err, rw)
          | (Return row, (rows, w)) =>
              match bindO (cell row 0) assertString with
              | Panic msg => Some (Panic msg, (rows, w))
              | Fail err => Some (Fail err, (rows, w))
              | Return table =>
                  structureLoop fuel rows w
                    (schema ++ [{| core.Name := table;
                                   core.Schema := EmptyString;
                                   core.Type_ := core.StructureTypeTable |}])
              end
          end
      end
  end.

Definition Structure (fuel : nat) (d : t) (w : World)
  : option (outcome (list core.Structure) * World) :=
  let query := "SHOW TABLES;" in
  match Query d query w with
  | (Fail err, w) => Some (Fail err, w)
  | (Panic msg, w) => Some (Panic msg, w)
  | (Return rows, w) =>
      match structureLoop fuel rows w [] with
      | Some (r, (_, w)) => Some (r, w)
      | None => None
      end
  end.

End duckDriver.

(** ** Vocabulary of the statements *)

(** The catalog entry both drivers build for a name. *)
Definition tableEntry (table : string) : core.Structure :=
  {| core.Name := table; core.Schema := EmptyString;
     core.Type_ := core.StructureTypeTable |}.

(** The documents of a cursor reply: the items of its array-typed fields,
    batch after batch in the order the fields are visited. *)
Definition documents (cursor : list (string * any)) : list any :=
  flat_map (fun kb => fst (assertA (snd kb))) cursor.

Definition envelopeRow (doc : any) : core.Row := [toAny (newMongoResponse doc)].

(** Connection identifiers are handed out in increasing order. *)
Definition wellFormed (w : World) : Prop :=
  forall con, In con (live w) \/ In con (closes w) -> con < fresh w.

(** Every row the pull pair holds has one cell. *)
Definition oneCell (it : iterator) : Prop :=
  match it with
  | Buffer buf _ => Forall (fun row : core.Row => List.length row = 1) buf
  | _ => True
  end.

(** The state of the cleanup of connection [con] held by stream [s]: not
    run and the connection never closed, or run and the connection closed
    once and gone from the pool's live set. *)
Definition cleanupOnce (con : nat) (s : ResultStream) (w : World) : Prop :=
  callback s = Some (conClose con) /\
  ((released s = false /\ closeCount con w = 0) \/
   (released s = true /\ closeCount con w = 1 /\ ~ In con (live w))).

(** ** Sample backends *)

Definition sampleCursor : list (string * any) :=
  [("firstBatch", A [Str "a"; Str "b"]); ("id", Int64 0); ("ns", Str "test.coll")].

Definition sampleReply : list (string * any) :=
  [("cursor", M sampleCursor); ("ok", Double 4607182418800017408)].

Definition sampleClient : mongo.Client :=
  {| mongo.databaseNames := Return ["admin"; "test"];
     mongo.regexCompile := Regexp.compile;
     mongo.collectionNames := fun _ => Return ["a"; "b"];
     mongo.runCommand := fun _ _ => Return sampleReply |}.

Definition sampleDriver : mongoDriver.t :=
  {| mongoDriver.c := sampleClient; mongoDriver.dbName := "test" |}.

Definition sampleUnmarshal (query : string) : outcome any :=
  Return (D [("find", Str "coll")]).

Definition emptyWorld : World := {| fresh := 0; live := []; closes := [] |}.

(** A reply whose cursor field is not a document. *)
Definition malformedReply : list (string * any) :=
  [("cursor", Str "x"); ("ok", Double 4607182418800017408)].

(** A server that answers every command with that reply. *)
Definition malformedClient : mongo.Client :=
  {| mongo.databaseNames := Return ["admin"; "test"];
     mongo.regexCompile := Regexp.compile;
     mongo.collectionNames := fun _ => Return [];
     mongo.runCommand := fun _ _ => Return malformedReply |}.

Definition malformedDriver : mongoDriver.t :=
  {| mongoDriver.c := malformedClient; mongoDriver.dbName := "test" |}.

(** A DuckDB pool whose connections answer every query with the given
    records under one column. *)
Definition sampleDuck (rows : list core.Row) : duckDriver.t :=
  {| duckDriver.c :=
       {| connErr := None;
          answer := fun _ => Return {| columns := ["name"]; records := rows;
                                       scanErr := None |} |} |}.

(** A DuckDB pool whose connections fail every query. *)
Definition failingDuck (err : error) : duckDriver.t :=
  {| duckDriver.c := {| connErr := None; answer := fun _ => Fail err |} |}.

(** Stand-ins for the libraries behind [Connect] on two connection strings:
    [url.Parse] accepts both with an empty path; the client is made for the
    first and refused for the second, whose scheme is not a Mongo one. *)
Definition parseNoPath (rawURL : string) : outcome url.URL :=
  Return {| url.Path := EmptyString |}.

Definition connectByScheme (rawURL : string) : outcome mongo.Client :=
  if String.prefix "mongodb://" rawURL then Return sampleClient
  else Fail (Error "error parsing uri: scheme must be mongodb or mongodb+srv").

(** A server holding a database whose name has a regex operator in it. *)
Definition plusClient : mongo.Client :=
  {| mongo.databaseNames := Return ["a+b"; "aab"; "test"];
     mongo.regexCompile := Regexp.compile;
     mongo.collectionNames := fun _ => Return [];
     mongo.runCommand := fun _ _ => Return [] |}.

Definition plusDriver : mongoDriver.t :=
  {| mongoDriver.c := plusClient; mongoDriver.dbName := "a+b" |}.

(** The match the server's engine makes of the pattern test. *)
Definition matchesTest (subject : string) : bool :=
  Regexp.search [(Regexp.Lit "t", Regexp.One); (Regexp.Lit "e", Regexp.One);
                 (Regexp.Lit "s", Regexp.One); (Regexp.Lit "t", Regexp.One)]
                (list_ascii_of_string subject).

(** Stand-ins for [json.MarshalIndent], [json.Marshal], the compaction and
    [fmt.Sprint]: the first two refuse the double whose bits are those of a
    NaN. *)
Definition sampleMarshalIndent (v : any) (prefix indent : string)
  : list Byte.byte + error :=
  match v with
  | Double 9221120237041090560 => inr (Error "json: unsupported value: NaN")
  | _ => inl (list_byte_of_string "{}")
  end.

Definition sampleMarshal (v : any) : list Byte.byte + error :=
  sampleMarshalIndent v EmptyString EmptyString.

Definition sampleCompact (b : list Byte.byte) : list Byte.byte + error := inl b.

Definition sampleSprint (v : any) : string := "NaN".

(** ** Vocabulary of the further statements *)

(** Is the field of a cursor document a batch, an array. *)
Definition isArray (kb : string * any) : bool := snd (assertA (snd kb)).


(** [sub] occurs in [s]. *)
Definition contains (sub s : string) : Prop :=
  exists before after, s = (before ++ sub ++ after)%string.

(** The pull pair holds no error of its producer. *)
Definition noSourceError (it : iterator) : Prop :=
  match it with
  | Buffer _ (Some _) => False
  | Yield (_, Fail _) => False
  | _ => True
  end.

(** Every row the pull pair holds, or will hold once driven, is in [rows]. *)
Definition rowsWithin (rows : list core.Row) (it : iterator) : Prop :=
  match it with
  | Single v _ => In [v] rows
  | Yield (out, _) => forall v, In v out -> In [v] rows
  | Buffer buf _ => forall row, In row buf -> In row rows
  end.

(** A server that cannot be asked for its databases. *)
Definition unreachableClient : mongo.Client :=
  {| mongo.databaseNames := Fail (Error "server selection timeout");
     mongo.regexCompile := Regexp.compile;
     mongo.collectionNames := fun _ => Fail (Error "server selection timeout");
     mongo.runCommand := fun _ _ => Fail (Error "server selection timeout") |}.

(** A driver with no database selected, as a connection string with the
    bare path gives. *)
Definition freshDriver : mongoDriver.t :=
  {| mongoDriver.c := sampleClient; mongoDriver.dbName := EmptyString |}.

(** A reply that is one document, with no cursor. *)
Definition pingReply : list (string * any) := [("ok", Double 4607182418800017408)].

Definition pingClient : mongo.Client :=
  {| mongo.databaseNames := Return ["admin"; "test"];
     mongo.regexCompile := Regexp.compile;
     mongo.collectionNames := fun _ => Return [];
     mongo.runCommand := fun _ _ => Return pingReply |}.

Definition pingDriver : mongoDriver.t :=
  {| mongoDriver.c := pingClient; mongoDriver.dbName := "test" |}.

(** A cursor whose batch is empty: identifier and namespace only. *)
Definition emptyCursorReply : list (string * any) :=
  [("cursor", M [("id", Int64 0); ("ns", Str "test.coll")]);
   ("ok", Double 4607182418800017408)].

(** A server with a database whose name is not a pattern. *)
Definition parenClient : mongo.Client :=
  {| mongo.databaseNames := Return ["a(b"; "test"];
     mongo.regexCompile := Regexp.compile;
     mongo.collectionNames := fun _ => Return [];
     mongo.runCommand := fun _ _ => Return [] |}.

Definition parenDriver : mongoDriver.t :=
  {| mongoDriver.c := parenClient; mongoDriver.dbName := "a(b" |}.

(** A server whose database names contain one another. *)
Definition nestedNamesClient : mongo.Client :=
  {| mongo.databaseNames := Return ["test"; "test2"; "mytest"; "prod"];
     mongo.regexCompile := Regexp.compile;
     mongo.collectionNames := fun _ => Return [];
     mongo.runCommand := fun _ _ => Return [] |}.

Definition nestedNamesDriver : mongoDriver.t :=
  {| mongoDriver.c := nestedNamesClient; mongoDriver.dbName := "test" |}.

(** [url.Parse] on a connection string with the bare path. *)
Definition parseBareSlash (rawURL : string) : outcome url.URL :=
  Return {| url.Path := "/" |}.

(** An error of [Query] and the step it comes from: the selection of the
    database, the parsing of the query text, or the command. *)
Definition QueryErrorSource (U : string -> outcome any) (d d1 : mongoDriver.t)
    (query : string) (e : error) : Prop :=
  mongoDriver.getCurrentDatabase d = (Fail e, d1) \/
  (exists db err,
      mongoDriver.getCurrentDatabase d = (Return db, d1) /\
      U query = Fail err /\
      e = Error ("cannot marshal command: " ++ quote ++ query ++ quote
                 ++ " to bson: " ++ errorText err)) \/
  (exists db command,
      mongoDriver.getCurrentDatabase d = (Return db, d1) /\
      U query = Return command /\
      mongo.RunCommand (mongoDriver.c d1) db command = Fail e).

(** A parser that refuses every query text. *)
Definition brokenUnmarshal (query : string) : outcome any :=
  Fail (Error "invalid JSON input").


(** A pattern made of literal characters. *)
Definition literal (pattern : string) : Prop :=
  Forall (fun ch => Regexp.isMeta ch = false) (list_ascii_of_string pattern).

(** A document as a find on a collection with dates returns it. *)
Definition datedDocument : any :=
  M [("_id", ObjectID "65a1f0c2e4b0a1b2c3d4e5f6");
     ("history", A [M [("at", DateTime 1700000000000); ("by", Str "ann")]])].

(** * Properties *)

(** ** Producers and pull pairs *)

Lemma forRange_yield (f : any -> any) (batch : list any) :
  forRange batch (fun item => yield (f item)) = (map f batch, Return tt).
Proof.
  induction batch as [|item rest IH]; cbn [forRange].
  - reflexivity.
  - rewrite IH. reflexivity.
Qed.

Lemma cursorProducer_documents (cursor : list (string * any)) :
  mongoDriver.cursorProducer (M cursor) true
  = (map (fun d => toAny (newMongoResponse d)) (documents cursor), Return tt).
Proof.
  unfold mongoDriver.cursorProducer. simpl.
  assert (H : forRange cursor (fun kb =>
              let (batch, ok) := assertA (snd kb) in
              if negb ok then retP tt
              else forRange batch (fun item => yield (toAny (newMongoResponse item))))
            = (map (fun d => toAny (newMongoResponse d)) (documents cursor), Return tt)).
  { induction cursor as [|[name b] rest IH]; simpl.
    - reflexivity.
    - unfold documents in *. simpl. rewrite IH. rewrite map_app.
      destruct b; simpl; try reflexivity.
      rewrite forRange_yield. reflexivity. }
  rewrite H. simpl. rewrite app_nil_r. reflexivity.
Qed.

Lemma cursorProducer_panics (cur : any) (ok : bool) :
  (forall m, cur <> M m) ->
  exists msg, mongoDriver.cursorProducer cur ok = ([], Panic msg).
Proof.
  intros Hcur. unfold mongoDriver.cursorProducer.
  destruct cur; simpl; try (eexists; reflexivity).
  exfalso. eapply Hcur. reflexivity.
Qed.

Lemma nextI_yield_return (out : list any) (u : unit) :
  nextI (Yield (out, Return u)) = nextI (Buffer (map (fun v => [v]) out) None).
Proof. reflexivity. Qed.

Lemma run_next_exhausted (k : nat) :
  forall s w, iter s = Buffer [] None ->
    fst (run (repeat OpNext k) s w) = repeat (EvNext (Fail ErrExhausted)) k.
Proof.
  induction k as [|k IH]; intros s w Hit; simpl.
  - reflexivity.
  - unfold Next. rewrite Hit. simpl.
    destruct (Close (WithNextFunc (Buffer [] None) s) w) as [s1 w1] eqn:Hc. simpl.
    assert (Hit1 : iter s1 = Buffer [] None).
    { unfold Close in Hc. destruct (released _); inversion Hc; reflexivity. }
    specialize (IH s1 w1 Hit1).
    destruct (run (repeat OpNext k) s1 w1) as [evs sw]. simpl in *. now rewrite IH.
Qed.

Lemma run_next_buffer (buf : list core.Row) (k : nat) :
  forall s w, iter s = Buffer buf None ->
    fst (run (repeat OpNext (List.length buf + k)) s w)
    = map (fun r => EvNext (Return r)) buf ++ repeat (EvNext (Fail ErrExhausted)) k.
Proof.
  induction buf as [|r rest IH]; intros s w Hit.
  - simpl. now apply run_next_exhausted.
  - simpl. unfold Next. rewrite Hit. simpl.
    specialize (IH (WithNextFunc (Buffer rest None) s) w eq_refl).
    destruct (run (repeat OpNext (List.length rest + k)) _ w) as [evs sw].
    simpl in *. now rewrite IH.
Qed.

Lemma run_next_yield (out : list any) (k : nat) :
  forall s w, iter s = Yield (out, Return tt) ->
    fst (run (repeat OpNext (List.length out + k)) s w)
    = map (fun v => EvNext (Return [v])) out ++ repeat (EvNext (Fail ErrExhausted)) k.
Proof.
  intros s w Hit.
  pose proof (run_next_buffer (map (fun v => [v]) out) k
                (WithNextFunc (Buffer (map (fun v => [v]) out) None) s) w eq_refl) as H.
  rewrite length_map, map_map in H. etransitivity; [|exact H]. clear H.
  destruct (List.length out + k) as [|n] eqn:Hn.
  - reflexivity.
  - simpl. unfold Next. rewrite Hit. simpl iter. rewrite nextI_yield_return.
    destruct (nextI (Buffer (map (fun v => [v]) out) None)) as [r it].
    destruct r; reflexivity.
Qed.

Lemma replyStream_cursor (resp : list (string * any)) (cur : any) :
  index resp "cursor" = (cur, true) ->
  mongoDriver.replyStream resp
  = {| iter := Yield (mongoDriver.cursorProducer cur true); header := ["Reply"];
       meta := {| core.SchemaType_ := core.SchemaLess |}; callback := None; released := false |}.
Proof. intros H. unfold mongoDriver.replyStream. rewrite H. reflexivity. Qed.

Lemma replyStream_single (resp : list (string * any)) (cur : any) :
  index resp "cursor" = (cur, false) ->
  mongoDriver.replyStream resp
  = {| iter := Single (toAny (newMongoResponse (M resp))) true; header := ["Reply"];
       meta := {| core.SchemaType_ := core.SchemaLess |}; callback := None; released := false |}.
Proof. intros H. unfold mongoDriver.replyStream. rewrite H. reflexivity. Qed.

Lemma Query_returns_replyStream (U : string -> outcome any)
    (c c1 : mongoDriver.t) (query : string) (s : ResultStream) :
  mongoDriver.Query U c query = (Return s, c1) ->
  exists resp, s = mongoDriver.replyStream resp.
Proof.
  unfold mongoDriver.Query. intros H.
  destruct (mongoDriver.getCurrentDatabase c) as [[db|e|msg] c0]; try discriminate.
  destruct (U query) as [command|e|msg]; try discriminate.
  destruct (mongo.RunCommand (mongoDriver.c c0) db command) as [resp|e|msg]; try discriminate.
  inversion H. exists resp. reflexivity.
Qed.

Lemma Query_reply (U : string -> outcome any)
    (c c1 : mongoDriver.t) (query db : string) (command : any)
    (resp : list (string * any)) :
  mongoDriver.getCurrentDatabase c = (Return db, c1) ->
  U query = Return command ->
  mongo.RunCommand (mongoDriver.c c1) db command = Return resp ->
  mongoDriver.Query U c query = (Return (mongoDriver.replyStream resp), c1).
Proof. intros H1 H2 H3. unfold mongoDriver.Query. rewrite H1, H2, H3. reflexivity. Qed.

Lemma batch_contiguous (cursor : list (string * any)) (name : string)
    (batch : list any) :
  In (name, A batch) cursor ->
  exists before after, documents cursor = before ++ batch ++ after.
Proof.
  intros Hin. apply in_split in Hin. destruct Hin as [l1 [l2 ->]].
  exists (documents l1), (documents l2).
  unfold documents. rewrite flat_map_app. reflexivity.
Qed.

Lemma documents_perm (cursor cursor' : list (string * any)) :
  Permutation cursor cursor' ->
  Permutation (documents cursor) (documents cursor').
Proof.
  intros H. unfold documents.
  induction H; simpl.
  - constructor.
  - now apply Permutation_app_head.
  - rewrite !app_assoc. apply Permutation_app_tail. apply Permutation_app_comm.
  - etransitivity; eassumption.
Qed.

Lemma documents_count_order_independent (cursor cursor' : list (string * any)) :
  Permutation cursor cursor' ->
  List.length (documents cursor) = List.length (documents cursor').
Proof. intros H. apply Permutation_length. now apply documents_perm. Qed.

(** ** Row arity *)

Lemma drive_oneCell (it it' : iterator) :
  oneCell it -> drive it = Return it' -> oneCell it'.
Proof.
  intros Hone Hd. destruct it as [v has|[out [u|e|msg]]|buf err]; simpl in Hd;
    inversion Hd; subst; simpl; auto;
    apply Forall_map; apply Forall_forall; intros; reflexivity.
Qed.

Lemma hasNextI_oneCell (it : iterator) :
  oneCell it -> oneCell (snd (hasNextI it)).
Proof.
  intros Hone. unfold hasNextI.
  destruct (drive it) as [it'|e|msg] eqn:Hd; simpl; auto.
  pose proof (drive_oneCell it it' Hone Hd) as H'.
  destruct it'; simpl; auto.
Qed.

Lemma nextI_oneCell (it : iterator) :
  oneCell it ->
  oneCell (snd (nextI it)) /\
  forall row, fst (nextI it) = Return row -> List.length row = 1.
Proof.
  intros Hone. unfold nextI.
  destruct (drive it) as [it'|e|msg] eqn:Hd; simpl; auto; try (split; [auto|discriminate]).
  pose proof (drive_oneCell it it' Hone Hd) as H'.
  destruct it' as [v [|]|fn|[|r rest] [e|]]; simpl in *;
    try (split; [auto|discriminate]).
  - split; [auto|]. intros row Hr. inversion Hr. reflexivity.
  - inversion H'; subst. split; [assumption|]. intros row Hr. inversion Hr; subst. assumption.
  - inversion H'; subst. split; [assumption|]. intros row Hr. inversion Hr; subst. assumption.
Qed.

Lemma Close_keeps (s : ResultStream) (w : World) :
  iter (fst (Close s w)) = iter s /\ header (fst (Close s w)) = header s.
Proof. unfold Close. destruct (released s); simpl; auto. Qed.

Lemma run_oneCell (ops : list op) :
  forall s w, oneCell (iter s) ->
    header (fst (snd (run ops s w))) = header s /\
    Forall (fun row : core.Row => List.length row = 1) (yielded (fst (run ops s w))).
Proof.
  induction ops as [|o rest IH]; intros s w Hone.
  - simpl. auto.
  - destruct o; simpl.
    + unfold HasNext.
      pose proof (hasNextI_oneCell (iter s) Hone) as H1.
      destruct (hasNextI (iter s)) as [r it]. simpl in H1.
      destruct (isPanic r); simpl; [auto|].
      specialize (IH (WithNextFunc it s) w H1).
      destruct (run rest (WithNextFunc it s) w) as [evs sw]. simpl in *. exact IH.
    + unfold Next.
      pose proof (nextI_oneCell (iter s) Hone) as [H1 H2].
      destruct (nextI (iter s)) as [r it]. simpl in H1, H2.
      destruct r as [row|e|msg]; simpl.
      * specialize (IH (WithNextFunc it s) w H1).
        destruct (run rest (WithNextFunc it s) w) as [evs sw]. simpl in *.
        destruct IH as [IHh IHy]. split; [exact IHh|].
        constructor; [apply H2; reflexivity|exact IHy].
      * pose proof (Close_keeps (WithNextFunc it s) w) as [Hci Hch].
        destruct (Close (WithNextFunc it s) w) as [s1 w1]. simpl in *.
        assert (Hone1 : oneCell (iter s1)) by (rewrite Hci; exact H1).
        specialize (IH s1 w1 Hone1).
        destruct (run rest s1 w1) as [evs sw]. simpl in *.
        destruct IH as [IHh IHy]. split; [congruence|exact IHy].
      * auto.
    + pose proof (Close_keeps s w) as [Hci Hch].
      destruct (Close s w) as [s1 w1]. simpl in *.
      assert (Hone1 : oneCell (iter s1)) by (rewrite Hci; exact Hone).
      specialize (IH s1 w1 Hone1).
      destruct (run rest s1 w1) as [evs sw]. simpl in *.
      destruct IH as [IHh IHy]. split; [congruence|exact IHy].
Qed.

Lemma replyStream_oneCell (resp : list (string * any)) :
  header (mongoDriver.replyStream resp) = ["Reply"] /\
  oneCell (iter (mongoDriver.replyStream resp)).
Proof.
  unfold mongoDriver.replyStream. destruct (index resp "cursor") as [cur [|]]; simpl; auto.
Qed.

(** ** Claims on the Mongo stream *)

(** C4. A Mongo cursor reply holding N documents in its batches gives a
    stream on which exactly N calls of Next succeed, one per document, every
    later call failing as exhausted; the documents of one batch come out
    consecutively in their order within the batch, for every order in which
    the batches are visited. *)
Theorem mongo_cursor_stream_yields_documents (U : string -> outcome any)
    (c c1 : mongoDriver.t) (query db : string) (command : any)
    (resp cursor : list (string * any)) :
  mongoDriver.getCurrentDatabase c = (Return db, c1) ->
  U query = Return command ->
  mongo.RunCommand (mongoDriver.c c1) db command = Return resp ->
  index resp "cursor" = (M cursor, true) ->
  exists s,
    mongoDriver.Query U c query = (Return s, c1) /\
    (forall w k,
        fst (run (repeat OpNext (List.length (documents cursor) + k)) s w)
        = map (fun d => EvNext (Return (envelopeRow d))) (documents cursor)
          ++ repeat (EvNext (Fail ErrExhausted)) k) /\
    (forall name batch, In (name, A batch) cursor ->
        exists before after, documents cursor = before ++ batch ++ after).
Proof.
  intros Hdb Hq Hrun Hcur.
  exists (mongoDriver.replyStream resp). split; [|split].
  - now apply Query_reply with (db := db) (command := command).
  - intros w k. rewrite (replyStream_cursor resp (M cursor) Hcur).
    pose proof (run_next_yield
                  (map (fun d => toAny (newMongoResponse d)) (documents cursor)) k
                  {| iter := Yield (mongoDriver.cursorProducer (M cursor) true);
                     header := ["Reply"];
                     meta := {| core.SchemaType_ := core.SchemaLess |}; callback := None;
                     released := false |} w) as H.
    rewrite length_map, map_map in H. apply H.
    simpl. rewrite cursorProducer_documents. reflexivity.
  - intros name batch. apply batch_contiguous.
Qed.

Lemma mongo_cursor_stream_yields_documents_witness :
  exists s,
    mongoDriver.Query sampleUnmarshal sampleDriver "q" = (Return s, sampleDriver) /\
    (forall w k,
        fst (run (repeat OpNext (List.length (documents sampleCursor) + k)) s w)
        = map (fun d => EvNext (Return (envelopeRow d))) (documents sampleCursor)
          ++ repeat (EvNext (Fail ErrExhausted)) k) /\
    (forall name batch, In (name, A batch) sampleCursor ->
        exists before after, documents sampleCursor = before ++ batch ++ after).
Proof.
  apply (mongo_cursor_stream_yields_documents sampleUnmarshal sampleDriver sampleDriver
           "q" "test" (D [("find", Str "coll")]) sampleReply sampleCursor);
    reflexivity.
Defined.

(** The order of documents of different batches follows the order in which
    the batches are visited. *)
Example documents_across_batches :
  documents [("firstBatch", A [Str "a"]); ("nextBatch", A [Str "b"])] = [Str "a"; Str "b"] /\
  documents [("nextBatch", A [Str "b"]); ("firstBatch", A [Str "a"])] = [Str "b"; Str "a"].
Proof. split; reflexivity. Qed.

(** C7. A stream returned by the Mongo driver's Query has the header
    [Reply], whatever is done with it, and every row it hands out has exactly
    one cell, the length of the header, for a cursor reply and for a single
    document alike. *)
Theorem mongo_stream_header_and_arity (U : string -> outcome any)
    (c c1 : mongoDriver.t) (query : string) (s : ResultStream) :
  mongoDriver.Query U c query = (Return s, c1) ->
  header s = ["Reply"] /\
  forall ops w,
    header (fst (snd (run ops s w))) = ["Reply"] /\
    Forall (fun row : core.Row => List.length row = List.length (header s))
           (yielded (fst (run ops s w))).
Proof.
  intros HQ. apply Query_returns_replyStream in HQ. destruct HQ as [resp ->].
  destruct (replyStream_oneCell resp) as [Hh Hone].
  split; [exact Hh|]. intros ops w.
  destruct (run_oneCell ops (mongoDriver.replyStream resp) w Hone) as [H1 H2].
  rewrite Hh in *. split; [exact H1|exact H2].
Qed.

Lemma mongo_stream_header_and_arity_witness :
  header (mongoDriver.replyStream sampleReply) = ["Reply"] /\
  forall ops w,
    header (fst (snd (run ops (mongoDriver.replyStream sampleReply) w))) = ["Reply"] /\
    Forall (fun row : core.Row =>
              List.length row = List.length (header (mongoDriver.replyStream sampleReply)))
           (yielded (fst (run ops (mongoDriver.replyStream sampleReply) w))).
Proof.
  apply (mongo_stream_header_and_arity sampleUnmarshal sampleDriver sampleDriver "q").
  reflexivity.
Defined.

Example single_document_stream :
  fst (run [OpHasNext; OpNext; OpHasNext; OpNext]
           (mongoDriver.replyStream [("ok", Double 4607182418800017408)]) emptyWorld)
  = [EvHasNext (Return true);
     EvNext (Return (envelopeRow (M [("ok", Double 4607182418800017408)])));
     EvHasNext (Return false);
     EvNext (Fail ErrExhausted)].
Proof. reflexivity. Qed.

(** ** Cleanup of the DuckDB connection *)

Lemma closeCount_conClose (con : nat) (w : World) :
  closeCount con (conClose con w) = S (closeCount con w).
Proof.
  unfold closeCount, conClose. simpl.
  destruct (Nat.eq_dec con con) as [_|n]; [reflexivity|contradiction].
Qed.

Lemma live_conClose (con : nat) (w : World) : ~ In con (live (conClose con w)).
Proof. unfold conClose. simpl. apply remove_In. Qed.

Lemma Close_cleanupOnce (con : nat) (s : ResultStream) (w : World) :
  cleanupOnce con s w ->
  cleanupOnce con (fst (Close s w)) (snd (Close s w)) /\
  released (fst (Close s w)) = true.
Proof.
  intros [Hcb [[Hr Hc]|[Hr Hc]]]; unfold Close; rewrite Hr; simpl.
  - rewrite Hcb. simpl. split; [|reflexivity].
    split; [reflexivity|]. right. simpl.
    rewrite closeCount_conClose, Hc.
    split; [reflexivity|]. split; [reflexivity|apply live_conClose].
  - split; [|exact Hr]. split; [exact Hcb|]. right. split; assumption.
Qed.

Lemma Next_cleanupOnce (con : nat) (s : ResultStream) (w : World) :
  cleanupOnce con s w ->
  cleanupOnce con (fst (snd (Next s w))) (snd (snd (Next s w))) /\
  (forall e, fst (Next s w) = Fail e -> released (fst (snd (Next s w))) = true) /\
  (released s = true -> released (fst (snd (Next s w))) = true).
Proof.
  intros H. unfold Next.
  destruct (nextI (iter s)) as [[row|e|msg] it]; simpl.
  - split; [exact H|]. split; [discriminate|auto].
  - assert (H0 : cleanupOnce con (WithNextFunc it s) w) by exact H.
    pose proof (Close_cleanupOnce con (WithNextFunc it s) w H0) as [H1 H2].
    destruct (Close (WithNextFunc it s) w) as [s1 w1]. simpl in *.
    split; [exact H1|]. split; intros; exact H2.
  - split; [exact H|]. split; [discriminate|auto].
Qed.

Lemma run_cleanupOnce (con : nat) (ops : list op) :
  forall s w, cleanupOnce con s w ->
    cleanupOnce con (fst (snd (run ops s w))) (snd (snd (run ops s w))) /\
    (released s = true -> released (fst (snd (run ops s w))) = true) /\
    ((In EvClose (fst (run ops s w)) \/
      exists e, In (EvNext (Fail e)) (fst (run ops s w))) ->
     released (fst (snd (run ops s w))) = true).
Proof.
  induction ops as [|o rest IH]; intros s w H.
  - simpl. split; [exact H|]. split; [auto|].
    intros [[]|[e []]].
  - destruct o; simpl.
    + unfold HasNext. destruct (hasNextI (iter s)) as [r it].
      destruct (isPanic r) eqn:Hp; simpl.
      * split; [exact H|]. split; [auto|].
        intros [[Hc|[]]|[e [He|[]]]]; discriminate.
      * assert (H0 : cleanupOnce con (WithNextFunc it s) w) by exact H.
        specialize (IH (WithNextFunc it s) w H0).
        destruct (run rest (WithNextFunc it s) w) as [evs [s2 w2]]. simpl in *.
        destruct IH as [I1 [I2 I3]]. split; [exact I1|]. split; [exact I2|].
        intros [[Hc|Hc]|[e [He|He]]]; try discriminate; apply I3; eauto.
    + pose proof (Next_cleanupOnce con s w H) as [N1 [N2 N3]].
      destruct (Next s w) as [r [s1 w1]]. simpl in *.
      destruct (isPanic r) eqn:Hp; simpl.
      * split; [exact N1|]. split; [exact N3|].
        intros [[Hc|[]]|[e [He|[]]]]; [discriminate|].
        inversion He; subst. discriminate.
      * specialize (IH s1 w1 N1).
        destruct (run rest s1 w1) as [evs [s2 w2]]. simpl in *.
        destruct IH as [I1 [I2 I3]]. split; [exact I1|]. split; [auto|].
        intros [[Hc|Hc]|[e [He|He]]]; try discriminate.
        -- apply I3; eauto.
        -- inversion He; subst. apply I2. eapply N2. reflexivity.
        -- apply I3; eauto.
    + pose proof (Close_cleanupOnce con s w H) as [C1 C2].
      destruct (Close s w) as [s1 w1]. simpl in *.
      specialize (IH s1 w1 C1).
      destruct (run rest s1 w1) as [evs [s2 w2]]. simpl in *.
      destruct IH as [I1 [I2 I3]]. split; [exact I1|]. split; [auto|].
      intros _. apply I2. exact C2.
Qed.

Lemma fresh_not_closed (w : World) :
  wellFormed w -> closeCount (fresh w) w = 0 /\ ~ In (fresh w) (live w).
Proof.
  intros Hwf. split.
  - unfold closeCount. apply count_occ_not_In. intros Hin.
    specialize (Hwf (fresh w) (or_intror Hin)). lia.
  - intros Hin. specialize (Hwf (fresh w) (or_introl Hin)). lia.
Qed.

Lemma duckQuery_conn_fails (c : duckDriver.t) (query : string) (w : World) (err : error) :
  connErr (duckDriver.c c) = Some err -> duckDriver.Query c query w = (Fail err, w).
Proof. intros H. unfold duckDriver.Query, Conn. rewrite H. reflexivity. Qed.

Lemma duckQuery_query_fails (c : duckDriver.t) (query : string) (w : World) (err : error) :
  connErr (duckDriver.c c) = None ->
  answer (duckDriver.c c) query = Fail err ->
  duckDriver.Query c query w
  = (Fail err,
     conClose (fresh w)
       {| fresh := S (fresh w); live := fresh w :: live w; closes := closes w |}).
Proof.
  intros H1 H2. unfold duckDriver.Query, Conn, conQuery. rewrite H1, H2. reflexivity.
Qed.

Lemma duckQuery_succeeds (c : duckDriver.t) (query : string) (w : World) (rows : sqlRows) :
  connErr (duckDriver.c c) = None ->
  answer (duckDriver.c c) query = Return rows ->
  duckDriver.Query c query w
  = (Return {| iter := Buffer (records rows) (scanErr rows); header := columns rows;
               meta := {| core.SchemaType_ := core.Typed |};
               callback := Some (conClose (fresh w)); released := false |},
     {| fresh := S (fresh w); live := fresh w :: live w; closes := closes w |}).
Proof.
  intros H1 H2. unfold duckDriver.Query, Conn, conQuery. rewrite H1, H2. reflexivity.
Qed.

(** C2. In the DuckDB driver's Query: when no connection can be acquired
    the error is returned and nothing is touched; when the connection is
    acquired and the query fails, the connection has been closed, once, by
    the time the error is returned, and the pool's live set is as before;
    when the query succeeds, closing the connection is the cleanup action of
    the returned stream, the connection is still open, and whatever the
    consumer does it is closed at most once, and exactly once as soon as the
    stream is closed explicitly or a Next finds no row. *)
Theorem duck_query_releases_connection (c : duckDriver.t) (query : string) (w : World) :
  wellFormed w ->
  (forall err, connErr (duckDriver.c c) = Some err ->
     duckDriver.Query c query w = (Fail err, w)) /\
  (forall err, connErr (duckDriver.c c) = None -> answer (duckDriver.c c) query = Fail err ->
     exists w',
       duckDriver.Query c query w = (Fail err, w') /\
       closeCount (fresh w) w' = 1 /\ ~ In (fresh w) (live w') /\ live w' = live w) /\
  (forall rows, connErr (duckDriver.c c) = None -> answer (duckDriver.c c) query = Return rows ->
     exists s w',
       duckDriver.Query c query w = (Return s, w') /\
       callback s = Some (conClose (fresh w)) /\
       In (fresh w) (live w') /\ closeCount (fresh w) w' = 0 /\
       forall ops,
         closeCount (fresh w) (snd (snd (run ops s w'))) <= 1 /\
         ((In EvClose (fst (run ops s w')) \/
           exists e, In (EvNext (Fail e)) (fst (run ops s w'))) ->
          closeCount (fresh w) (snd (snd (run ops s w'))) = 1 /\
          ~ In (fresh w) (live (snd (snd (run ops s w')))))).
Proof.
  intros Hwf. destruct (fresh_not_closed w Hwf) as [Hcount Hlive].
  split; [|split].
  - intros err H. now apply duckQuery_conn_fails.
  - intros err H1 H2. eexists. split; [exact (duckQuery_query_fails c query w err H1 H2)|].
    split; [|split].
    + rewrite closeCount_conClose. unfold closeCount in *. simpl. now rewrite Hcount.
    + apply live_conClose.
    + unfold conClose. simpl.
      destruct (Nat.eq_dec (fresh w) (fresh w)) as [_|n]; [|contradiction].
      now apply notin_remove.
  - intros rows H1 H2. eexists. eexists.
    split; [exact (duckQuery_succeeds c query w rows H1 H2)|].
    split; [reflexivity|]. split; [left; reflexivity|]. split; [exact Hcount|].
    intros ops.
    match goal with |- context [run ops ?s ?w'] =>
      assert (Hinv : cleanupOnce (fresh w) s w')
        by (split; [reflexivity|left; split; [reflexivity|exact Hcount]]);
      destruct (run_cleanupOnce (fresh w) ops s w' Hinv) as [[_ Hst] [_ Hrel]];
      destruct (run ops s w') as [evs [s2 w2]]
    end.
    simpl in *. split.
    + destruct Hst as [[_ Hc]|[_ [Hc _]]]; lia.
    + intros Hev. specialize (Hrel Hev).
      destruct Hst as [[Hr _]|[_ [Hc Hl]]]; [congruence|]. split; assumption.
Qed.

Lemma duck_query_releases_connection_witness :
  (exists w',
     duckDriver.Query (failingDuck (Error "context canceled")) "SELECT 1;" emptyWorld
     = (Fail (Error "context canceled"), w') /\
     closeCount 0 w' = 1 /\ ~ In 0 (live w') /\ live w' = []).
Proof.
  apply (proj1 (proj2 (duck_query_releases_connection
                         (failingDuck (Error "context canceled")) "SELECT 1;" emptyWorld
                         (fun con H => match H with
                                       | or_introl F => False_ind _ F
                                       | or_intror F => False_ind _ F
                                       end)))
           (Error "context canceled")); reflexivity.
Defined.

Example duck_stream_closed_once :
  let '(s, w) := (fst (duckDriver.Query (sampleDuck [[Str "t"]]) "SELECT 1;" emptyWorld),
                  snd (duckDriver.Query (sampleDuck [[Str "t"]]) "SELECT 1;" emptyWorld)) in
  match s with
  | Return s =>
      closes (snd (snd (run [OpNext; OpNext; OpClose; OpNext] s w))) = [0] /\
      closes (snd (snd (run [OpNext; OpClose; OpClose] s w))) = [0] /\
      closes (snd (snd (run [OpHasNext; OpNext] s w))) = []
  | _ => False
  end.
Proof. simpl. repeat split. Qed.

(** ** Catalog listings *)

Lemma append_entries (collections : list string) :
  forall structure,
    fold_left (fun structure coll => structure ++ [tableEntry coll]) collections structure
    = structure ++ map tableEntry collections.
Proof.
  induction collections as [|coll rest IH]; intros structure; simpl.
  - now rewrite app_nil_r.
  - rewrite IH, <- app_assoc. reflexivity.
Qed.

Lemma structureLoop_tables (tables : list string) :
  forall fuel s w schema err,
    iter s = Buffer (map (fun t => [Str t]) tables) err ->
    List.length tables < fuel ->
    exists s',
      duckDriver.structureLoop fuel s w schema
      = Some (Return (schema ++ map tableEntry tables), (s', w)) /\
      fst (HasNext s') = Return false.
Proof.
  induction tables as [|t rest IH]; intros fuel s w schema err Hit Hfuel;
    (destruct fuel as [|fuel]; [simpl in Hfuel; lia|]).
  - simpl. unfold HasNext. rewrite Hit. simpl.
    eexists. split; [rewrite app_nil_r; reflexivity|].
    reflexivity.
  - simpl in Hfuel. cbn [duckDriver.structureLoop]. unfold HasNext. rewrite Hit. cbn.
    destruct (IH fuel
                 (WithNextFunc (Buffer (map (fun t => [Str t]) rest) err)
                    (WithNextFunc (Buffer ([Str t] :: map (fun t => [Str t]) rest) err) s))
                 w (schema ++ [tableEntry t]) err eq_refl ltac:(lia)) as [s' [Hs' Hn]].
    exists s'. split; [|exact Hn].
    rewrite <- app_assoc in Hs'. exact Hs'.
Qed.

(** C5. The Mongo driver's Structure returns one entry per collection name
    of the current database, in the order the backend lists them, each with
    the empty schema and the table type; the DuckDB driver's Structure issues
    the query SHOW TABLES through its own Query and drains the returned
    stream into the same kind of entries, one per row, in order. *)
Theorem structure_lists_names :
  (forall c c1 db collections,
      mongoDriver.getCurrentDatabase c = (Return db, c1) ->
      mongo.ListCollectionNames (mongoDriver.c c1) db = Return collections ->
      mongoDriver.Structure c = (Return (map tableEntry collections), c1)) /\
  (forall c w rows tables fuel,
      connErr (duckDriver.c c) = None ->
      answer (duckDriver.c c) "SHOW TABLES;" = Return rows ->
      records rows = map (fun t => [Str t]) tables ->
      List.length tables < fuel ->
      exists s w',
        duckDriver.Query c "SHOW TABLES;" w = (Return s, w') /\
        duckDriver.Structure fuel c w = Some (Return (map tableEntry tables), w')) /\
  (forall table, core.Name (tableEntry table) = table /\
                 core.Schema (tableEntry table) = EmptyString /\
                 core.Type_ (tableEntry table) = core.StructureTypeTable).
Proof.
  split; [|split].
  - intros c c1 db collections H1 H2. unfold mongoDriver.Structure. rewrite H1, H2.
    cbv zeta. change (fun structure coll =>
                        structure ++ [{| core.Name := coll; core.Schema := EmptyString;
                                         core.Type_ := core.StructureTypeTable |}])
      with (fun structure coll => structure ++ [tableEntry coll]).
    now rewrite append_entries.
  - intros c w rows tables fuel H1 H2 H3 Hfuel.
    pose proof (duckQuery_succeeds c "SHOW TABLES;" w rows H1 H2) as HQ.
    eexists. eexists. split; [exact HQ|].
    unfold duckDriver.Structure. rewrite HQ.
    match goal with |- context [duckDriver.structureLoop fuel ?s ?w' []] =>
      destruct (structureLoop_tables tables fuel s w' [] (scanErr rows)) as [s' [Hs' _]];
        [simpl; now rewrite H3|exact Hfuel|rewrite Hs']
    end.
    reflexivity.
  - intros table. repeat split.
Qed.

Lemma structure_lists_names_witness :
  mongoDriver.Structure sampleDriver
  = (Return [{| core.Name := "a"; core.Schema := EmptyString;
                core.Type_ := core.StructureTypeTable |};
             {| core.Name := "b"; core.Schema := EmptyString;
                core.Type_ := core.StructureTypeTable |}],
     sampleDriver).
Proof.
  apply (proj1 structure_lists_names sampleDriver sampleDriver "test" ["a"; "b"]);
    reflexivity.
Defined.

Example duck_structure_two_tables :
  option_map fst (duckDriver.Structure 3 (sampleDuck [[Str "a"]; [Str "b"]]) emptyWorld)
  = Some (Return [tableEntry "a"; tableEntry "b"]).
Proof. reflexivity. Qed.

(** ** Replies of an unexpected shape *)

Lemma cursor_not_document_panics (resp : list (string * any)) (cur : any) (w : World) :
  index resp "cursor" = (cur, true) ->
  (forall m, cur <> M m) ->
  exists msg,
    fst (HasNext (mongoDriver.replyStream resp)) = Panic msg /\
    fst (Next (mongoDriver.replyStream resp) w) = Panic msg.
Proof.
  intros Hcur Hnot. rewrite (replyStream_cursor resp cur Hcur).
  destruct (cursorProducer_panics cur true Hnot) as [msg Hp].
  exists msg. unfold HasNext, Next. simpl. rewrite Hp. split; reflexivity.
Qed.

(** C1, on the code. The server answers a command with a reply whose
    cursor field is a string. Query returns a stream and no error; the first
    use of the stream, HasNext as well as Next, panics in the single-value
    assertion of the cursor to a document. The error the producer prepares
    for that case is returned for no cursor value: the flag it tests is the
    one of the lookup of the field, true on that path. *)
Theorem mongo_cursor_string_panics :
  mongoDriver.Query sampleUnmarshal malformedDriver "{find: 'coll'}"
  = (Return (mongoDriver.replyStream malformedReply), malformedDriver) /\
  isPanic (fst (HasNext (mongoDriver.replyStream malformedReply))) = true /\
  isPanic (fst (Next (mongoDriver.replyStream malformedReply) emptyWorld)) = true /\
  (forall cur, snd (mongoDriver.cursorProducer cur true)
               <> Fail (Error "type assertion for cursor object failed")).
Proof.
  split; [reflexivity|]. split; [reflexivity|]. split; [reflexivity|].
  intros cur. destruct cur; try (simpl; discriminate).
  rewrite cursorProducer_documents. simpl. discriminate.
Qed.

(** The DuckDB driver's Structure asserts the first cell of a row to be a
    string in the single-value form as well: on a row whose first cell is an
    integer it panics. SHOW TABLES answers with one column of strings, so
    only a backend that breaks this reaches the panic. *)
Lemma duck_structure_non_string_cell_panics :
  option_map fst (duckDriver.Structure 2 (sampleDuck [[Int32 1]]) emptyWorld)
  = Some (Panic "interface conversion: interface {} is not string").
Proof. reflexivity. Qed.

Lemma first_cell_not_string (row : core.Row) :
  (forall t, nth_error row 0 <> Some (Str t)) ->
  exists msg, bindO (cell row 0) assertString = Panic msg.
Proof.
  intros H. unfold cell.
  destruct (nth_error row 0) as [v|] eqn:Hn; simpl.
  - destruct v; simpl; try (eexists; reflexivity).
    exfalso. eapply H. reflexivity.
  - eexists. reflexivity.
Qed.

Lemma structureLoop_bad_row (good : list (string * list any)) (bad : core.Row)
    (rest : list core.Row) :
  (forall t, nth_error bad 0 <> Some (Str t)) ->
  forall fuel s w schema err,
    iter s = Buffer (map (fun p => Str (fst p) :: snd p) good ++ bad :: rest) err ->
    List.length good < fuel ->
    exists msg s', duckDriver.structureLoop fuel s w schema = Some (Panic msg, (s', w)).
Proof.
  intros Hbad.
  induction good as [|[t others] good IH]; intros fuel s w schema err Hit Hfuel;
    (destruct fuel as [|fuel]; [simpl in Hfuel; lia|]).
  - destruct (first_cell_not_string bad Hbad) as [msg Hmsg].
    cbn [duckDriver.structureLoop]. unfold HasNext. rewrite Hit. cbn.
    cbn in Hmsg. rewrite Hmsg. eexists. eexists. reflexivity.
  - simpl in Hfuel. cbn [duckDriver.structureLoop]. unfold HasNext. rewrite Hit. cbn.
    apply IH with (err := err); [reflexivity|lia].
Qed.

(** The errors and the panic of the DuckDB driver's Structure: the error of
    acquiring the connection and the error of the SHOW TABLES query are
    returned to the caller as they are; a row whose first cell is missing or
    is not a string is not turned into an error, and Structure panics at the
    first such row, whatever the rows before it hold after their first
    cell. *)
Lemma duck_structure_errors_and_panics (c : duckDriver.t) (w : World) (fuel : nat) :
  (forall err, connErr (duckDriver.c c) = Some err ->
     duckDriver.Structure fuel c w = Some (Fail err, w)) /\
  (forall err,
     connErr (duckDriver.c c) = None -> answer (duckDriver.c c) "SHOW TABLES;" = Fail err ->
     exists w', duckDriver.Structure fuel c w = Some (Fail err, w')) /\
  (forall rows good bad rest,
     connErr (duckDriver.c c) = None -> answer (duckDriver.c c) "SHOW TABLES;" = Return rows ->
     records rows = map (fun p => Str (fst p) :: snd p) good ++ bad :: rest ->
     (forall t, nth_error bad 0 <> Some (Str t)) ->
     List.length good < fuel ->
     exists msg w', duckDriver.Structure fuel c w = Some (Panic msg, w')).
Proof.
  split; [|split].
  - intros err H. unfold duckDriver.Structure.
    rewrite (duckQuery_conn_fails c "SHOW TABLES;" w err H). reflexivity.
  - intros err H1 H2. unfold duckDriver.Structure.
    rewrite (duckQuery_query_fails c "SHOW TABLES;" w err H1 H2).
    eexists. reflexivity.
  - intros rows good bad rest H1 H2 H3 Hbad Hfuel. unfold duckDriver.Structure.
    rewrite (duckQuery_succeeds c "SHOW TABLES;" w rows H1 H2).
    match goal with |- context [duckDriver.structureLoop fuel ?s ?w' []] =>
      destruct (structureLoop_bad_row good bad rest Hbad fuel s w' [] (scanErr rows))
        as [msg [s' Hs']]; [simpl; now rewrite H3|exact Hfuel|rewrite Hs']
    end.
    eexists. eexists. reflexivity.
Qed.

Lemma duck_structure_errors_and_panics_witness :
  exists msg w',
    duckDriver.Structure 3 (sampleDuck [[Str "t"]; [Int32 1]; [Str "u"]]) emptyWorld
    = Some (Panic msg, w').
Proof.
  apply (proj2 (proj2 (duck_structure_errors_and_panics
                         (sampleDuck [[Str "t"]; [Int32 1]; [Str "u"]]) emptyWorld 3))
           {| columns := ["name"]; records := [[Str "t"]; [Int32 1]; [Str "u"]];
              scanErr := None |}
           [("t", [])] [Int32 1] [[Str "u"]]).
  - reflexivity.
  - reflexivity.
  - reflexivity.
  - intros t H. discriminate H.
  - simpl. lia.
Defined.

(** ** Connect *)

(** C9, as stated, fails: a connection string that [url.Parse] accepts with
    an empty path and whose client cannot be made gets an error back, not a
    panic. *)
Lemma connect_empty_path_returns_error :
  parseNoPath "http://host" = Return {| url.Path := EmptyString |} /\
  Mongo.Connect parseNoPath connectByScheme "http://host"
  = Fail (Error "error parsing uri: scheme must be mongodb or mongodb+srv").
Proof. split; reflexivity. Qed.

(** C9, amended. For a connection string that [url.Parse] accepts: if the
    client is made, a non-empty path gives a driver whose database name is
    the path without its first byte, the leading slash, and an empty path
    makes [u.Path[1:]] panic, so that neither a driver nor an error is
    returned; if the client is not made, Connect returns that error whatever
    the path. *)
Theorem connect_database_name (urlParse : string -> outcome url.URL)
    (mongoConnect : string -> outcome mongo.Client) (rawURL : string) (u : url.URL) :
  urlParse rawURL = Return u ->
  (forall client, mongoConnect rawURL = Return client ->
     (forall ch rest, url.Path u = String ch rest ->
        Mongo.Connect urlParse mongoConnect rawURL
        = Return {| mongoDriver.c := client; mongoDriver.dbName := rest |}) /\
     (url.Path u = EmptyString ->
        Mongo.Connect urlParse mongoConnect rawURL = Panic "slice bounds out of range [1:0]")) /\
  (forall err, mongoConnect rawURL = Fail err ->
     Mongo.Connect urlParse mongoConnect rawURL = Fail err).
Proof.
  intros Hu. split.
  - intros client Hc. split.
    + intros ch rest Hp. unfold Mongo.Connect. rewrite Hu, Hc, Hp. reflexivity.
    + intros Hp. unfold Mongo.Connect. rewrite Hu, Hc, Hp. reflexivity.
  - intros err Hc. unfold Mongo.Connect. rewrite Hu, Hc. reflexivity.
Qed.

Lemma connect_database_name_witness :
  Mongo.Connect parseNoPath connectByScheme "mongodb://host"
  = Panic "slice bounds out of range [1:0]".
Proof.
  apply (proj1 (connect_database_name parseNoPath connectByScheme "mongodb://host"
                  {| url.Path := EmptyString |} eq_refl) sampleClient); reflexivity.
Defined.

Example connect_with_path :
  Mongo.Connect (fun _ => Return {| url.Path := "/shop" |}) connectByScheme "mongodb://host/shop"
  = Return {| mongoDriver.c := sampleClient; mongoDriver.dbName := "shop" |}.
Proof. reflexivity. Qed.

(** ** ListDatabases *)

(** C10, as stated, fails: the database a+b is the current one and is
    listed as available, since the pattern a+b does not match the name
    a+b. *)
Lemma current_database_listed_as_available :
  fst (mongoDriver.ListDatabases plusDriver) = Return ("a+b", ["a+b"; "test"]) /\
  In "a+b" ["a+b"; "test"].
Proof. split; [reflexivity|left; reflexivity]. Qed.

(** The same driver state is reached by selecting the database. *)
Example select_then_list :
  snd (mongoDriver.SelectDatabase
         {| mongoDriver.c := plusClient; mongoDriver.dbName := "test" |} "a+b")
  = plusDriver /\
  fst (mongoDriver.ListDatabases
         {| mongoDriver.c := plusClient; mongoDriver.dbName := "test" |})
  = Return ("test", ["a+b"; "aab"]).
Proof. split; reflexivity. Qed.

Lemma ListDatabases_filter (c c1 : mongoDriver.t) (db : string) (all : list string)
    (matches : string -> bool) :
  mongoDriver.getCurrentDatabase c = (Return db, c1) ->
  mongo.databaseNames (mongoDriver.c c1) = Return all ->
  mongo.regexCompile (mongoDriver.c c1) db = Some matches ->
  mongoDriver.ListDatabases c
  = (Return (db, List.filter (fun name => negb (matches name)) all), c1).
Proof.
  intros H1 H2 H3. unfold mongoDriver.ListDatabases, mongo.ListDatabaseNames.
  rewrite H1, H2. simpl. rewrite H3. reflexivity.
Qed.

(** C10, amended. ListDatabases returns the current database name as
    current, and available holds exactly the databases of the server whose
    names the current name, read as a regular expression, does not match;
    the current database is left out when its name matches itself as a
    pattern, and so is every other database whose name the pattern
    matches. *)
Theorem list_databases_available (c c1 : mongoDriver.t) (db : string) (all : list string)
    (matches : string -> bool) :
  mongoDriver.getCurrentDatabase c = (Return db, c1) ->
  mongo.databaseNames (mongoDriver.c c1) = Return all ->
  mongo.regexCompile (mongoDriver.c c1) db = Some matches ->
  exists available,
    mongoDriver.ListDatabases c = (Return (db, available), c1) /\
    (forall name, In name available <-> In name all /\ matches name = false) /\
    (matches db = true -> ~ In db available).
Proof.
  intros H1 H2 H3.
  exists (List.filter (fun name => negb (matches name)) all).
  split; [now apply ListDatabases_filter|].
  assert (Hiff : forall name,
             In name (List.filter (fun name => negb (matches name)) all)
             <-> In name all /\ matches name = false).
  { intros name. rewrite filter_In. rewrite negb_true_iff. reflexivity. }
  split; [exact Hiff|].
  intros Hm Hin. apply Hiff in Hin. destruct Hin as [_ Hf]. congruence.
Qed.

Lemma list_databases_available_witness :
  exists available,
    mongoDriver.ListDatabases sampleDriver = (Return ("test", available), sampleDriver) /\
    (forall name, In name available <->
                  In name ["admin"; "test"] /\ matchesTest name = false) /\
    (matchesTest "test" = true -> ~ In "test" available).
Proof.
  apply (list_databases_available sampleDriver sampleDriver "test" ["admin"; "test"]
           matchesTest); reflexivity.
Defined.

Example list_databases_sample :
  fst (mongoDriver.ListDatabases sampleDriver) = Return ("test", ["admin"]).
Proof. reflexivity. Qed.

(** ** The envelope: binary encoding *)

Lemma GobDecode_of_GobEncode (reg : list gob.gotype) (mr target : mongoResponse.t)
    (buf : gob.message) :
  mongoResponse.GobEncode reg mr = Return buf ->
  mongoResponse.GobDecode reg target buf = (Fail gob.ErrLocalInterface, target).
Proof.
  unfold mongoResponse.GobEncode, gob.Encode, mongoResponse.GobDecode, gob.DecodeInterface.
  intros H.
  destruct (gob.typeOf (mongoResponse.value mr)) as [t|]; [|discriminate].
  destruct (gob.encodeValue (gob.encodeInterface reg) (mongoResponse.value mr));
    [discriminate|].
  inversion H. reflexivity.
Qed.

(** C3, on the code. The envelope of an empty bson.M, a registered type,
    encodes, and decoding what was encoded fails: the encoder was handed the
    wrapped value itself and announced its concrete type, and the decoder,
    handed a pointer to an interface field, takes only a value announced as
    an interface. *)
Theorem envelope_gob_round_trip_fails :
  mongoResponse.GobEncode registry (newMongoResponse (M []))
  = Return {| gob.sent := gob.WireConcrete gob.TyM; gob.body := M [] |} /\
  mongoResponse.GobDecode registry (newMongoResponse Nil)
    {| gob.sent := gob.WireConcrete gob.TyM; gob.body := M [] |}
  = (Fail gob.ErrLocalInterface, newMongoResponse Nil).
Proof. split; reflexivity. Qed.

(** A bson.M holding a DateTime, a type init does not register, does not
    encode; the nil envelope does not encode either. *)
Example unregistered_inside_does_not_encode :
  mongoResponse.GobEncode registry (newMongoResponse (M [("at", DateTime 0)]))
  = Fail (Error "gob: type not registered for interface: primitive.DateTime") /\
  mongoResponse.GobEncode registry (newMongoResponse Nil)
  = Fail (Error "gob: cannot encode nil value").
Proof. split; reflexivity. Qed.

(** ** The envelope: display and JSON *)

(** C6. The display rendering is a total function to strings: it is the
    indented JSON of the wrapped value when [json.MarshalIndent] gives one,
    and the default text of [fmt.Sprint] when it gives an error; no error is
    part of the result on either path. *)
Theorem String_total (jsonMarshalIndent : any -> string -> string -> list Byte.byte + error)
    (fmtSprint : any -> string) (mr : mongoResponse.t) :
  (forall parsed, jsonMarshalIndent (mongoResponse.value mr) EmptyString "  " = inl parsed ->
     mongoResponse.String_ jsonMarshalIndent fmtSprint mr = string_of_list_byte parsed) /\
  (forall err, jsonMarshalIndent (mongoResponse.value mr) EmptyString "  " = inr err ->
     mongoResponse.String_ jsonMarshalIndent fmtSprint mr = fmtSprint (mongoResponse.value mr)) /\
  (exists text, mongoResponse.String_ jsonMarshalIndent fmtSprint mr = text /\
     (text = fmtSprint (mongoResponse.value mr) \/
      exists parsed, jsonMarshalIndent (mongoResponse.value mr) EmptyString "  " = inl parsed /\
                     text = string_of_list_byte parsed)).
Proof.
  unfold mongoResponse.String_. split; [|split].
  - intros parsed H. rewrite H. reflexivity.
  - intros err H. rewrite H. reflexivity.
  - eexists. split; [reflexivity|].
    destruct (jsonMarshalIndent (mongoResponse.value mr) EmptyString "  ") as [parsed|err].
    + right. exists parsed. split; reflexivity.
    + left. reflexivity.
Qed.

Lemma String_total_witness :
  mongoResponse.String_ sampleMarshalIndent sampleSprint
    (newMongoResponse (Double 9221120237041090560))
  = "NaN" /\
  mongoResponse.String_ sampleMarshalIndent sampleSprint (newMongoResponse (M [])) = "{}".
Proof.
  split.
  - apply (proj1 (proj2 (String_total sampleMarshalIndent sampleSprint
                           (newMongoResponse (Double 9221120237041090560))))
             (Error "json: unsupported value: NaN")).
    reflexivity.
  - apply (proj1 (String_total sampleMarshalIndent sampleSprint (newMongoResponse (M [])))
             (list_byte_of_string "{}")).
    reflexivity.
Defined.

(** C8. The envelope's MarshalJSON gives, for every wrapped value, exactly
    what [json.Marshal] gives for the value itself, bytes or error, so that
    the JSON encoding of the envelope, which the library takes from that
    method and compacts, is byte for byte the encoding of the value, already
    compact. *)
Theorem MarshalJSON_delegates (jsonMarshal : any -> list Byte.byte + error)
    (compact : list Byte.byte -> list Byte.byte + error) (v : any) :
  mongoResponse.MarshalJSON jsonMarshal (newMongoResponse v) = jsonMarshal v /\
  (forall b, jsonMarshal v = inl b -> compact b = inl b ->
     jsonOfMarshaler compact (mongoResponse.MarshalJSON jsonMarshal (newMongoResponse v))
     = jsonMarshal v).
Proof.
  split.
  - reflexivity.
  - intros b Hb Hc. unfold mongoResponse.MarshalJSON, newMongoResponse. simpl.
    rewrite Hb. simpl. exact Hc.
Qed.

Lemma MarshalJSON_delegates_witness :
  jsonOfMarshaler sampleCompact
    (mongoResponse.MarshalJSON sampleMarshal (newMongoResponse (M [])))
  = sampleMarshal (M []).
Proof.
  apply (proj2 (MarshalJSON_delegates sampleMarshal sampleCompact (M []))
           (list_byte_of_string "{}")); reflexivity.
Defined.

(** ** Names without operators match themselves *)

Lemma isMeta_false (c : ascii) :
  Regexp.isMeta c = false ->
  Ascii.eqb c "\"%char = false /\ Ascii.eqb c "."%char = false /\
  Regexp.quantOf c = None.
Proof.
  intros H. repeat split.
  - destruct (Ascii.eqb c "\"%char) eqn:E; [|reflexivity].
    apply Ascii.eqb_eq in E. subst. vm_compute in H. discriminate.
  - destruct (Ascii.eqb c "."%char) eqn:E; [|reflexivity].
    apply Ascii.eqb_eq in E. subst. vm_compute in H. discriminate.
  - unfold Regexp.quantOf.
    destruct (Ascii.eqb c "*"%char) eqn:E1;
      [apply Ascii.eqb_eq in E1; subst; vm_compute in H; discriminate|].
    destruct (Ascii.eqb c "+"%char) eqn:E2;
      [apply Ascii.eqb_eq in E2; subst; vm_compute in H; discriminate|].
    destruct (Ascii.eqb c "?"%char) eqn:E3;
      [apply Ascii.eqb_eq in E3; subst; vm_compute in H; discriminate|].
    reflexivity.
Qed.

Lemma tokens_literal (p : list ascii) :
  Forall (fun c => Regexp.isMeta c = false) p ->
  Regexp.tokens p = Some (map (fun c => Regexp.TAtom (Regexp.Lit c)) p).
Proof.
  induction 1 as [|c p Hc Hp IH]; simpl.
  - reflexivity.
  - destruct (isMeta_false c Hc) as [E1 [E2 E3]].
    rewrite E1, E2, E3, Hc, IH. reflexivity.
Qed.

Lemma items_literal (p : list ascii) :
  Regexp.items (map (fun c => Regexp.TAtom (Regexp.Lit c)) p)
  = Some (map (fun c => (Regexp.Lit c, Regexp.One)) p).
Proof.
  induction p as [|c p IH].
  - reflexivity.
  - cbn [map Regexp.items]. destruct p as [|c' p'].
    + reflexivity.
    + cbn [map] in *. rewrite IH. reflexivity.
Qed.

Lemma matchHere_literal (p rest : list ascii) :
  Regexp.matchHere (map (fun c => (Regexp.Lit c, Regexp.One)) p) (p ++ rest) = true.
Proof.
  induction p as [|c p IH]; simpl.
  - reflexivity.
  - rewrite Ascii.eqb_refl, IH. reflexivity.
Qed.

Lemma search_of_matchHere (re : list (Regexp.atom * Regexp.quant)) (s : list ascii) :
  Regexp.matchHere re s = true -> Regexp.search re s = true.
Proof. intros H. destruct s; simpl; rewrite H; reflexivity. Qed.

Lemma literal_matches_itself (name : string) :
  Forall (fun c => Regexp.isMeta c = false) (list_ascii_of_string name) ->
  exists matches, Regexp.compile name = Some matches /\ matches name = true.
Proof.
  intros H. unfold Regexp.compile, Regexp.parse.
  rewrite (tokens_literal _ H), items_literal.
  eexists. split; [reflexivity|].
  apply search_of_matchHere.
  rewrite <- (app_nil_r (list_ascii_of_string name)) at 2.
  apply matchHere_literal.
Qed.

(** With the engine above on the server, a current database whose name has
    no operator in it is never listed as available. *)
Lemma literal_current_database_excluded (c c1 : mongoDriver.t) (db : string)
    (all : list string) :
  mongo.regexCompile (mongoDriver.c c1) = Regexp.compile ->
  Forall (fun ch => Regexp.isMeta ch = false) (list_ascii_of_string db) ->
  mongoDriver.getCurrentDatabase c = (Return db, c1) ->
  mongo.databaseNames (mongoDriver.c c1) = Return all ->
  exists available,
    mongoDriver.ListDatabases c = (Return (db, available), c1) /\ ~ In db available.
Proof.
  intros Hre Hlit H1 H2.
  destruct (literal_matches_itself db Hlit) as [matches [Hc Hm]].
  exists (List.filter (fun name => negb (matches name)) all). split.
  - apply ListDatabases_filter; [exact H1|exact H2|]. rewrite Hre. exact Hc.
  - intros Hin. apply filter_In in Hin. destruct Hin as [_ Hf].
    rewrite Hm in Hf. discriminate.
Qed.

(** * Further properties of the Mongo driver *)

(** ** The current database *)

Lemma getCurrentDatabase_selected (d : mongoDriver.t) :
  mongoDriver.dbName d <> EmptyString ->
  mongoDriver.getCurrentDatabase d = (Return (mongoDriver.dbName d), d).
Proof.
  intros Hne. unfold mongoDriver.getCurrentDatabase.
  destruct (String.eqb_spec (mongoDriver.dbName d) EmptyString) as [E|E].
  - contradiction.
  - reflexivity.
Qed.

Lemma getCurrentDatabase_unselected (d : mongoDriver.t) :
  mongoDriver.dbName d = EmptyString ->
  mongoDriver.getCurrentDatabase d
  = match mongo.ListDatabaseNames (mongoDriver.c d) mongo.FilterAll with
    | Fail err => (Fail (Wrapped "failed to select default database" err), d)
    | Panic msg => (Panic msg, d)
    | Return [] => (Fail (Error "no databases found"), d)
    | Return (db0 :: _) =>
        (Return db0, {| mongoDriver.c := mongoDriver.c d; mongoDriver.dbName := db0 |})
    end.
Proof.
  intros He. unfold mongoDriver.getCurrentDatabase. rewrite He. simpl.
  destruct (mongo.ListDatabaseNames (mongoDriver.c d) mongo.FilterAll) as [[|db0 rest]|e|m];
    reflexivity.
Qed.

(** X1. With no database selected, the first name the server lists becomes
    the current database and is stored in the driver; from then on the
    current database is that name whatever the server lists, and even when
    the server cannot be asked any more. *)
Theorem default_database_first_listed_and_kept (d : mongoDriver.t) (db0 : string)
    (rest : list string) :
  mongoDriver.dbName d = EmptyString ->
  mongo.ListDatabaseNames (mongoDriver.c d) mongo.FilterAll = Return (db0 :: rest) ->
  db0 <> EmptyString ->
  mongoDriver.getCurrentDatabase d
  = (Return db0, {| mongoDriver.c := mongoDriver.c d; mongoDriver.dbName := db0 |}) /\
  forall client,
    mongoDriver.getCurrentDatabase {| mongoDriver.c := client; mongoDriver.dbName := db0 |}
    = (Return db0, {| mongoDriver.c := client; mongoDriver.dbName := db0 |}).
Proof.
  intros He Hl Hne. split.
  - rewrite (getCurrentDatabase_unselected d He), Hl. reflexivity.
  - intros client.
    apply (getCurrentDatabase_selected
             {| mongoDriver.c := client; mongoDriver.dbName := db0 |}).
    exact Hne.
Qed.

Lemma default_database_first_listed_and_kept_witness :
  mongoDriver.getCurrentDatabase freshDriver
  = (Return "admin", {| mongoDriver.c := sampleClient; mongoDriver.dbName := "admin" |}) /\
  forall client,
    mongoDriver.getCurrentDatabase
      {| mongoDriver.c := client; mongoDriver.dbName := "admin" |}
    = (Return "admin", {| mongoDriver.c := client; mongoDriver.dbName := "admin" |}).
Proof.
  apply (default_database_first_listed_and_kept freshDriver "admin" ["test"]).
  - reflexivity.
  - reflexivity.
  - discriminate.
Defined.

(** X2. With no database selected, when the server lists no database or
    cannot be asked, Query, Structure and ListDatabases all fail with the
    error of the selection (the server's error wrapped, or that no databases
    were found), none of them reaches its own request, and the driver stays
    as it was. *)
Theorem no_default_database_fails_every_operation (U : string -> outcome any)
    (d : mongoDriver.t) (query : string) :
  mongoDriver.dbName d = EmptyString ->
  (mongo.ListDatabaseNames (mongoDriver.c d) mongo.FilterAll = Return [] ->
     mongoDriver.Query U d query = (Fail (Error "no databases found"), d) /\
     mongoDriver.Structure d = (Fail (Error "no databases found"), d) /\
     mongoDriver.ListDatabases d = (Fail (Error "no databases found"), d)) /\
  (forall inner,
     mongo.ListDatabaseNames (mongoDriver.c d) mongo.FilterAll = Fail inner ->
     mongoDriver.Query U d query
     = (Fail (Wrapped "failed to select default database" inner), d) /\
     mongoDriver.Structure d
     = (Fail (Wrapped "failed to select default database" inner), d) /\
     mongoDriver.ListDatabases d
     = (Fail (Wrapped "failed to select default database" inner), d)).
Proof.
  intros He. split.
  - intros Hl.
    unfold mongoDriver.Query, mongoDriver.Structure, mongoDriver.ListDatabases.
    rewrite (getCurrentDatabase_unselected d He), Hl. repeat split.
  - intros inner Hl.
    unfold mongoDriver.Query, mongoDriver.Structure, mongoDriver.ListDatabases.
    rewrite (getCurrentDatabase_unselected d He), Hl. repeat split.
Qed.

Lemma no_default_database_fails_every_operation_witness :
  mongoDriver.Query sampleUnmarshal
    {| mongoDriver.c := unreachableClient; mongoDriver.dbName := EmptyString |} "q"
  = (Fail (Wrapped "failed to select default database" (Error "server selection timeout")),
     {| mongoDriver.c := unreachableClient; mongoDriver.dbName := EmptyString |}) /\
  mongoDriver.Structure
    {| mongoDriver.c := unreachableClient; mongoDriver.dbName := EmptyString |}
  = (Fail (Wrapped "failed to select default database" (Error "server selection timeout")),
     {| mongoDriver.c := unreachableClient; mongoDriver.dbName := EmptyString |}) /\
  mongoDriver.ListDatabases
    {| mongoDriver.c := unreachableClient; mongoDriver.dbName := EmptyString |}
  = (Fail (Wrapped "failed to select default database" (Error "server selection timeout")),
     {| mongoDriver.c := unreachableClient; mongoDriver.dbName := EmptyString |}).
Proof.
  apply (proj2 (no_default_database_fails_every_operation sampleUnmarshal
                  {| mongoDriver.c := unreachableClient; mongoDriver.dbName := EmptyString |}
                  "q" eq_refl)
           (Error "server selection timeout")).
  reflexivity.
Defined.

(** X3. Query, Structure and ListDatabases change the driver in one way
    only, the selection of the default database: the driver they leave is
    the one getCurrentDatabase leaves, whether they succeed or fail later;
    its client is the one it had; and a driver with a database selected is
    left exactly as it was. *)
Theorem driver_changes_only_by_default_database (U : string -> outcome any)
    (d : mongoDriver.t) (query : string) :
  snd (mongoDriver.Query U d query) = snd (mongoDriver.getCurrentDatabase d) /\
  snd (mongoDriver.Structure d) = snd (mongoDriver.getCurrentDatabase d) /\
  snd (mongoDriver.ListDatabases d) = snd (mongoDriver.getCurrentDatabase d) /\
  mongoDriver.c (snd (mongoDriver.getCurrentDatabase d)) = mongoDriver.c d /\
  (mongoDriver.dbName d <> EmptyString ->
   snd (mongoDriver.Query U d query) = d /\
   snd (mongoDriver.Structure d) = d /\
   snd (mongoDriver.ListDatabases d) = d).
Proof.
  assert (HQ : snd (mongoDriver.Query U d query) = snd (mongoDriver.getCurrentDatabase d)).
  { unfold mongoDriver.Query.
    destruct (mongoDriver.getCurrentDatabase d) as [[db|e|m] d0]; simpl; try reflexivity.
    destruct (U query) as [command|e|m]; simpl; try reflexivity.
    destruct (mongo.RunCommand (mongoDriver.c d0) db command); reflexivity. }
  assert (HS : snd (mongoDriver.Structure d) = snd (mongoDriver.getCurrentDatabase d)).
  { unfold mongoDriver.Structure.
    destruct (mongoDriver.getCurrentDatabase d) as [[db|e|m] d0]; simpl; try reflexivity.
    destruct (mongo.ListCollectionNames (mongoDriver.c d0) db); reflexivity. }
  assert (HL : snd (mongoDriver.ListDatabases d) = snd (mongoDriver.getCurrentDatabase d)).
  { unfold mongoDriver.ListDatabases.
    destruct (mongoDriver.getCurrentDatabase d) as [[db|e|m] d0]; simpl; try reflexivity.
    destruct (mongo.ListDatabaseNames (mongoDriver.c d0) (mongo.FilterNameNotRegex db));
      reflexivity. }
  split; [exact HQ|]. split; [exact HS|]. split; [exact HL|]. split.
  - unfold mongoDriver.getCurrentDatabase.
    destruct (negb (mongoDriver.dbName d =? EmptyString)%string); [reflexivity|].
    destruct (mongo.ListDatabaseNames (mongoDriver.c d) mongo.FilterAll)
      as [[|db0 rest]|e|m]; reflexivity.
  - intros Hne. rewrite HQ, HS, HL, (getCurrentDatabase_selected d Hne). repeat split.
Qed.

Lemma driver_changes_only_by_default_database_witness :
  snd (mongoDriver.Query sampleUnmarshal sampleDriver "q") = sampleDriver /\
  snd (mongoDriver.Structure sampleDriver) = sampleDriver /\
  snd (mongoDriver.ListDatabases sampleDriver) = sampleDriver.
Proof.
  apply (proj2 (proj2 (proj2 (proj2
           (driver_changes_only_by_default_database sampleUnmarshal sampleDriver "q"))))).
  discriminate.
Defined.

(** X4. An error of Query comes from the first step that fails and from no
    other: the selection of the database; the parsing of the query text,
    whose error is flattened into a message quoting the query; or the
    command, whose error is returned as the server gave it. *)
Theorem Query_error_sources (U : string -> outcome any) (d d1 : mongoDriver.t)
    (query : string) (e : error) :
  mongoDriver.Query U d query = (Fail e, d1) ->
  QueryErrorSource U d d1 query e.
Proof.
  unfold mongoDriver.Query, QueryErrorSource. intros H.
  destruct (mongoDriver.getCurrentDatabase d) as [[db|e0|m] d0]; try discriminate.
  - destruct (U query) as [command|err|m] eqn:HU; try discriminate.
    + destruct (mongo.RunCommand (mongoDriver.c d0) db command) as [resp|e1|m] eqn:HR;
        try discriminate.
      inversion H; subst. right. right. exists db, command. repeat split. exact HR.
    + inversion H; subst. right. left. exists db, err. repeat split.
  - inversion H; subst. left. reflexivity.
Qed.

Lemma Query_error_sources_witness :
  QueryErrorSource brokenUnmarshal sampleDriver sampleDriver "{"
    (Error (mongoDriver.marshalCommandMessage "{" (Error "invalid JSON input"))).
Proof.
  apply (Query_error_sources brokenUnmarshal sampleDriver sampleDriver "{").
  reflexivity.
Defined.



(** X6. A connection string whose path is the bare slash gives a driver
    with no database selected, and the first use of that driver selects the
    first database the server lists. *)
Theorem connect_bare_path_selects_first_database (urlParse : string -> outcome url.URL)
    (mongoConnect : string -> outcome mongo.Client) (rawURL : string) (u : url.URL)
    (client : mongo.Client) (db0 : string) (rest : list string) :
  urlParse rawURL = Return u ->
  url.Path u = "/" ->
  mongoConnect rawURL = Return client ->
  mongo.ListDatabaseNames client mongo.FilterAll = Return (db0 :: rest) ->
  Mongo.Connect urlParse mongoConnect rawURL
  = Return {| mongoDriver.c := client; mongoDriver.dbName := EmptyString |} /\
  mongoDriver.getCurrentDatabase
    {| mongoDriver.c := client; mongoDriver.dbName := EmptyString |}
  = (Return db0, {| mongoDriver.c := client; mongoDriver.dbName := db0 |}).
Proof.
  intros Hu Hp Hc Hl. split.
  - unfold Mongo.Connect. rewrite Hu, Hc, Hp. reflexivity.
  - rewrite (getCurrentDatabase_unselected
               {| mongoDriver.c := client; mongoDriver.dbName := EmptyString |} eq_refl).
    simpl. rewrite Hl. reflexivity.
Qed.

Lemma connect_bare_path_selects_first_database_witness :
  Mongo.Connect parseBareSlash connectByScheme "mongodb://host/" = Return freshDriver /\
  mongoDriver.getCurrentDatabase freshDriver
  = (Return "admin", {| mongoDriver.c := sampleClient; mongoDriver.dbName := "admin" |}).
Proof.
  apply (connect_bare_path_selects_first_database parseBareSlash connectByScheme
           "mongodb://host/" {| url.Path := "/" |} sampleClient "admin" ["test"]);
    reflexivity.
Defined.

(** ** What the stream of a reply shows *)

Lemma run_next_single_done (v : any) (k : nat) :
  forall s w, iter s = Single v false ->
    fst (run (repeat OpNext k) s w) = repeat (EvNext (Fail ErrExhausted)) k.
Proof.
  induction k as [|k IH]; intros s w Hit; simpl.
  - reflexivity.
  - unfold Next. rewrite Hit. simpl.
    destruct (Close (WithNextFunc (Single v false) s) w) as [s1 w1] eqn:Hc. simpl.
    assert (Hit1 : iter s1 = Single v false).
    { unfold Close in Hc. destruct (released _); inversion Hc; reflexivity. }
    specialize (IH s1 w1 Hit1).
    destruct (run (repeat OpNext k) s1 w1) as [evs sw]. simpl in *. now rewrite IH.
Qed.

(** X7. A reply with no cursor field gives a stream of exactly one row, the
    envelope of the whole reply: HasNext is true at first, the first Next
    hands the row out and every later Next fails as exhausted. *)
Theorem reply_without_cursor_is_one_row (U : string -> outcome any)
    (d d1 : mongoDriver.t) (query db : string) (command : any)
    (resp : list (string * any)) :
  mongoDriver.getCurrentDatabase d = (Return db, d1) ->
  U query = Return command ->
  mongo.RunCommand (mongoDriver.c d1) db command = Return resp ->
  snd (index resp "cursor") = false ->
  exists s,
    mongoDriver.Query U d query = (Return s, d1) /\
    fst (HasNext s) = Return true /\
    forall w k,
      fst (run (repeat OpNext (S k)) s w)
      = EvNext (Return (envelopeRow (M resp))) :: repeat (EvNext (Fail ErrExhausted)) k.
Proof.
  intros Hdb HU HR Hno.
  exists (mongoDriver.replyStream resp).
  split; [now apply Query_reply with (db := db) (command := command)|].
  destruct (index resp "cursor") as [cur ok] eqn:Hi. simpl in Hno. subst ok.
  rewrite (replyStream_single resp cur Hi).
  split; [reflexivity|].
  intros w k. cbn [repeat run]. unfold Next. cbn.
  pose proof (run_next_single_done (toAny (newMongoResponse (M resp))) k
                (WithNextFunc (Single (toAny (newMongoResponse (M resp))) false)
                   {| iter := Single (toAny (newMongoResponse (M resp))) true;
                      header := ["Reply"];
                      meta := {| core.SchemaType_ := core.SchemaLess |};
                      callback := None; released := false |}) w eq_refl) as H.
  destruct (run (repeat OpNext k) _ w) as [evs sw]. simpl in *. now rewrite H.
Qed.

Lemma reply_without_cursor_is_one_row_witness :
  exists s,
    mongoDriver.Query sampleUnmarshal pingDriver "q" = (Return s, pingDriver) /\
    fst (HasNext s) = Return true /\
    forall w k,
      fst (run (repeat OpNext (S k)) s w)
      = EvNext (Return (envelopeRow (M pingReply)))
        :: repeat (EvNext (Fail ErrExhausted)) k.
Proof.
  apply (reply_without_cursor_is_one_row sampleUnmarshal pingDriver pingDriver
           "q" "test" (D [("find", Str "coll")]) pingReply); reflexivity.
Defined.

Lemma documents_only_arrays (cursor : list (string * any)) :
  documents (List.filter isArray cursor) = documents cursor.
Proof.
  unfold documents.
  induction cursor as [|[name b] rest IH]; simpl.
  - reflexivity.
  - unfold isArray at 1. simpl.
    destruct b; simpl; try exact IH.
    now rewrite IH.
Qed.

Lemma documents_no_arrays (cursor : list (string * any)) :
  forallb (fun kb => negb (isArray kb)) cursor = true -> documents cursor = [].
Proof.
  unfold documents.
  induction cursor as [|[name b] rest IH]; simpl; intros H.
  - reflexivity.
  - apply andb_true_iff in H. destruct H as [Hb Hrest].
    rewrite (IH Hrest). destruct b; try reflexivity.
    unfold isArray in Hb. simpl in Hb. discriminate.
Qed.

(** X8. The fields of a cursor document that are not arrays (the cursor
    identifier, the namespace) are passed over without an error: the
    producer emits what it would emit without them, and a cursor with no
    array field gives an empty stream, whose HasNext is false and whose Next
    fails as exhausted. *)
Theorem cursor_fields_that_are_not_arrays_are_skipped :
  (forall cursor,
      mongoDriver.cursorProducer (M cursor) true
      = mongoDriver.cursorProducer (M (List.filter isArray cursor)) true) /\
  (forall resp cursor w,
      index resp "cursor" = (M cursor, true) ->
      forallb (fun kb => negb (isArray kb)) cursor = true ->
      fst (HasNext (mongoDriver.replyStream resp)) = Return false /\
      fst (Next (mongoDriver.replyStream resp) w) = Fail ErrExhausted).
Proof.
  split.
  - intros cursor.
    rewrite !cursorProducer_documents, documents_only_arrays. reflexivity.
  - intros resp cursor w Hcur Hno.
    rewrite (replyStream_cursor resp (M cursor) Hcur).
    unfold HasNext, Next. simpl iter.
    unfold hasNextI, nextI, drive.
    rewrite cursorProducer_documents, (documents_no_arrays cursor Hno).
    split; reflexivity.
Qed.

Lemma cursor_fields_that_are_not_arrays_are_skipped_witness :
  fst (HasNext (mongoDriver.replyStream emptyCursorReply)) = Return false /\
  fst (Next (mongoDriver.replyStream emptyCursorReply) emptyWorld) = Fail ErrExhausted.
Proof.
  apply (proj2 cursor_fields_that_are_not_arrays_are_skipped emptyCursorReply
           [("id", Int64 0); ("ns", Str "test.coll")] emptyWorld); reflexivity.
Defined.

Lemma documents_come_from_batches (cursor : list (string * any)) (doc : any) :
  In doc (documents cursor) ->
  exists name batch, In (name, A batch) cursor /\ In doc batch.
Proof.
  unfold documents. intros H. apply in_flat_map in H.
  destruct H as [[name b] [Hin Hd]].
  destruct b; simpl in Hd; try contradiction.
  exists name, items. split; assumption.
Qed.

Lemma drive_rowsWithin (rows : list core.Row) (it it' : iterator) :
  rowsWithin rows it -> drive it = Return it' -> rowsWithin rows it'.
Proof.
  intros Hin Hd. destruct it as [v has|[out [u|e|msg]]|buf err]; simpl in Hd;
    inversion Hd; subst; simpl in *; auto;
    intros row Hrow; apply in_map_iff in Hrow; destruct Hrow as [v [<- Hv]]; auto.
Qed.

Lemma hasNextI_rowsWithin (rows : list core.Row) (it : iterator) :
  rowsWithin rows it -> rowsWithin rows (snd (hasNextI it)).
Proof.
  intros Hin. unfold hasNextI.
  destruct (drive it) as [it'|e|msg] eqn:Hd; simpl; auto.
  pose proof (drive_rowsWithin rows it it' Hin Hd) as H'.
  destruct it'; simpl; auto.
Qed.

Lemma nextI_rowsWithin (rows : list core.Row) (it : iterator) :
  rowsWithin rows it ->
  rowsWithin rows (snd (nextI it)) /\
  forall row, fst (nextI it) = Return row -> In row rows.
Proof.
  intros Hin. unfold nextI.
  destruct (drive it) as [it'|e|msg] eqn:Hd; simpl; auto; try (split; [auto|discriminate]).
  pose proof (drive_rowsWithin rows it it' Hin Hd) as H'.
  destruct it' as [v [|]|fn|[|r rest] [e|]]; simpl in *;
    try (split; [auto|discriminate]).
  - split; [auto|]. intros row Hr. inversion Hr; subst. exact H'.
  - split; [auto|]. intros row Hr. inversion Hr; subst. auto.
  - split; [auto|]. intros row Hr. inversion Hr; subst. auto.
Qed.

Lemma run_rowsWithin (rows : list core.Row) (ops : list op) :
  forall s w, rowsWithin rows (iter s) ->
    forall row, In row (yielded (fst (run ops s w))) -> In row rows.
Proof.
  induction ops as [|o rest IH]; intros s w Hin row Hrow.
  - simpl in Hrow. contradiction.
  - destruct o; simpl in Hrow.
    + unfold HasNext in Hrow.
      pose proof (hasNextI_rowsWithin rows (iter s) Hin) as H1.
      destruct (hasNextI (iter s)) as [r it]. simpl in H1.
      destruct (isPanic r); simpl in Hrow; [contradiction|].
      specialize (IH (WithNextFunc it s) w H1 row).
      destruct (run rest (WithNextFunc it s) w) as [evs sw]. simpl in *. auto.
    + unfold Next in Hrow.
      pose proof (nextI_rowsWithin rows (iter s) Hin) as [H1 H2].
      destruct (nextI (iter s)) as [r it]. simpl in H1, H2.
      destruct r as [row0|e|msg]; simpl in Hrow.
      * specialize (IH (WithNextFunc it s) w H1 row).
        destruct (run rest (WithNextFunc it s) w) as [evs sw]. simpl in *.
        destruct Hrow as [<-|Hrow]; [apply H2; reflexivity|auto].
      * pose proof (Close_keeps (WithNextFunc it s) w) as [Hci _].
        destruct (Close (WithNextFunc it s) w) as [s1 w1]. simpl in *.
        assert (Hin1 : rowsWithin rows (iter s1)) by (rewrite Hci; exact H1).
        specialize (IH s1 w1 Hin1 row).
        destruct (run rest s1 w1) as [evs sw]. simpl in *. auto.
      * contradiction.
    + pose proof (Close_keeps s w) as [Hci _].
      destruct (Close s w) as [s1 w1]. simpl in *.
      assert (Hin1 : rowsWithin rows (iter s1)) by (rewrite Hci; exact Hin).
      specialize (IH s1 w1 Hin1 row).
      destruct (run rest s1 w1) as [evs sw]. simpl in *. auto.
Qed.

(** X9. Whatever the consumer does with the stream of a cursor reply, every
    row it is handed is the envelope of an item of one of the arrays of the
    cursor document: the other fields of the cursor and the fields of the
    reply beside the cursor never show up as rows. *)
Theorem cursor_stream_yields_only_batch_items (resp cursor : list (string * any))
    (ops : list op) (w : World) (row : core.Row) :
  index resp "cursor" = (M cursor, true) ->
  In row (yielded (fst (run ops (mongoDriver.replyStream resp) w))) ->
  exists name batch item,
    In (name, A batch) cursor /\ In item batch /\ row = envelopeRow item.
Proof.
  intros Hcur Hrow.
  assert (Hin : In row (map envelopeRow (documents cursor))).
  { apply (run_rowsWithin (map envelopeRow (documents cursor)) ops
             (mongoDriver.replyStream resp) w); [|exact Hrow].
    rewrite (replyStream_cursor resp (M cursor) Hcur). simpl iter.
    rewrite cursorProducer_documents. simpl.
    intros v Hv. apply in_map_iff in Hv. destruct Hv as [doc [<- Hdoc]].
    apply in_map_iff. exists doc. split; [reflexivity|exact Hdoc]. }
  apply in_map_iff in Hin. destruct Hin as [doc [<- Hdoc]].
  destruct (documents_come_from_batches cursor doc Hdoc) as [name [batch [H1 H2]]].
  exists name, batch, doc. repeat split; assumption.
Qed.

Lemma cursor_stream_yields_only_batch_items_witness :
  exists name batch item,
    In (name, A batch) sampleCursor /\ In item batch /\
    envelopeRow (Str "a") = envelopeRow item.
Proof.
  apply (cursor_stream_yields_only_batch_items sampleReply sampleCursor
           [OpHasNext; OpNext] emptyWorld (envelopeRow (Str "a"))).
  - reflexivity.
  - left. reflexivity.
Defined.

(** ** The errors of a stream *)

Lemma cursorProducer_never_fails (cur : any) (e : error) :
  snd (mongoDriver.cursorProducer cur true) <> Fail e.
Proof.
  destruct cur; try (simpl; discriminate).
  rewrite cursorProducer_documents. simpl. discriminate.
Qed.

Lemma replyStream_noSourceError (resp : list (string * any)) :
  noSourceError (iter (mongoDriver.replyStream resp)).
Proof.
  unfold mongoDriver.replyStream.
  destruct (index resp "cursor") as [cur [|]]; simpl; [|exact I].
  pose proof (cursorProducer_never_fails cur) as H.
  destruct (mongoDriver.cursorProducer cur true) as [out [u|e|msg]]; simpl in *; auto.
  apply (H e). reflexivity.
Qed.

Lemma drive_noSourceError (it it' : iterator) :
  noSourceError it -> drive it = Return it' -> noSourceError it'.
Proof.
  intros Hno Hd. destruct it as [v has|[out [u|e|msg]]|buf [e|]]; simpl in *;
    try contradiction; inversion Hd; subst; simpl; auto.
Qed.

Lemma hasNextI_noSourceError (it : iterator) :
  noSourceError it ->
  noSourceError (snd (hasNextI it)) /\ forall e, fst (hasNextI it) <> Fail e.
Proof.
  intros Hno. unfold hasNextI.
  destruct (drive it) as [it'|e|msg] eqn:Hd; simpl.
  - pose proof (drive_noSourceError it it' Hno Hd) as H'.
    destruct it' as [v has|fn|buf err]; simpl; split; auto; discriminate.
  - destruct it as [v has|[out [u|e0|msg]]|buf err]; simpl in Hd; discriminate.
  - split; [exact Hno|discriminate].
Qed.

Lemma nextI_noSourceError (it : iterator) :
  noSourceError it ->
  noSourceError (snd (nextI it)) /\
  forall e, fst (nextI it) = Fail e -> e = ErrExhausted.
Proof.
  intros Hno. unfold nextI.
  destruct (drive it) as [it'|e|msg] eqn:Hd; simpl.
  - pose proof (drive_noSourceError it it' Hno Hd) as H'.
    destruct it' as [v [|]|fn|[|r rest] [e|]]; simpl in *; try contradiction;
      (split; [auto|]); intros e0 He; inversion He; reflexivity.
  - destruct it as [v has|[out [u|e0|msg]]|buf err]; simpl in Hd; discriminate.
  - split; [exact Hno|discriminate].
Qed.

Lemma run_noSourceError (ops : list op) :
  forall s w, noSourceError (iter s) ->
    (forall e, In (EvNext (Fail e)) (fst (run ops s w)) -> e = ErrExhausted) /\
    (forall e, ~ In (EvHasNext (Fail e)) (fst (run ops s w))).
Proof.
  induction ops as [|o rest IH]; intros s w Hno.
  - simpl. split; intros e H; contradiction.
  - destruct o; simpl.
    + unfold HasNext.
      pose proof (hasNextI_noSourceError (iter s) Hno) as [H1 H2].
      destruct (hasNextI (iter s)) as [r it]. simpl in H1, H2.
      destruct (isPanic r) eqn:Hp; simpl.
      * split.
        -- intros e [He|[]]. discriminate.
        -- intros e [He|[]]. inversion He; subst. discriminate.
      * specialize (IH (WithNextFunc it s) w H1).
        destruct (run rest (WithNextFunc it s) w) as [evs sw]. simpl in *.
        destruct IH as [I1 I2]. split.
        -- intros e [He|He]; [discriminate|auto].
        -- intros e [He|He]; [inversion He; subst; eapply H2; reflexivity|eapply I2; eauto].
    + unfold Next.
      pose proof (nextI_noSourceError (iter s) Hno) as [H1 H2].
      destruct (nextI (iter s)) as [r it]. simpl in H1, H2.
      destruct r as [row0|e0|msg]; simpl.
      * specialize (IH (WithNextFunc it s) w H1).
        destruct (run rest (WithNextFunc it s) w) as [evs sw]. simpl in *.
        destruct IH as [I1 I2]. split.
        -- intros e [He|He]; [discriminate|auto].
        -- intros e [He|He]; [discriminate|eapply I2; eauto].
      * pose proof (Close_keeps (WithNextFunc it s) w) as [Hci _].
        destruct (Close (WithNextFunc it s) w) as [s1 w1]. simpl in *.
        assert (Hno1 : noSourceError (iter s1)) by (rewrite Hci; exact H1).
        specialize (IH s1 w1 Hno1).
        destruct (run rest s1 w1) as [evs sw]. simpl in *.
        destruct IH as [I1 I2]. split.
        -- intros e [He|He]; [inversion He; subst; apply H2; reflexivity|auto].
        -- intros e [He|He]; [discriminate|eapply I2; eauto].
      * split.
        -- intros e [He|[]]. discriminate.
        -- intros e [He|[]]. discriminate.
    + pose proof (Close_keeps s w) as [Hci _].
      destruct (Close s w) as [s1 w1]. simpl in *.
      assert (Hno1 : noSourceError (iter s1)) by (rewrite Hci; exact Hno).
      specialize (IH s1 w1 Hno1).
      destruct (run rest s1 w1) as [evs sw]. simpl in *.
      destruct IH as [I1 I2]. split.
      * intros e [He|He]; [discriminate|auto].
      * intros e [He|He]; [discriminate|eapply I2; eauto].
Qed.

(** X10. Whatever the reply and whatever the consumer does, the stream the
    Mongo driver builds never reports an error of the reply: its HasNext
    never fails, and its Next fails with the exhaustion error and no other;
    the error the producer prepares for a cursor that is not a document is
    never returned. *)
Theorem mongo_stream_fails_only_as_exhausted (resp : list (string * any))
    (ops : list op) (w : World) :
  (forall e, In (EvNext (Fail e)) (fst (run ops (mongoDriver.replyStream resp) w)) ->
             e = ErrExhausted) /\
  (forall e, ~ In (EvHasNext (Fail e)) (fst (run ops (mongoDriver.replyStream resp) w))) /\
  (forall cur e, snd (mongoDriver.cursorProducer cur true) <> Fail e).
Proof.
  destruct (run_noSourceError ops (mongoDriver.replyStream resp) w
              (replyStream_noSourceError resp)) as [H1 H2].
  split; [exact H1|]. split; [exact H2|]. exact cursorProducer_never_fails.
Qed.

Lemma mongo_stream_fails_only_as_exhausted_witness : ErrExhausted = ErrExhausted.
Proof.
  apply (proj1 (mongo_stream_fails_only_as_exhausted emptyCursorReply [OpNext] emptyWorld)
           ErrExhausted).
  left. reflexivity.
Defined.

(** ** ListDatabases and the name of the current database *)

(** X11. When the name of the current database does not compile as a
    pattern on the server, ListDatabases fails, with the server's error
    wrapped, although the database exists and whatever other databases the
    server holds. *)
Theorem list_databases_fails_on_a_name_that_is_no_pattern (d d1 : mongoDriver.t)
    (db : string) (all : list string) :
  mongoDriver.getCurrentDatabase d = (Return db, d1) ->
  mongo.databaseNames (mongoDriver.c d1) = Return all ->
  mongo.regexCompile (mongoDriver.c d1) db = None ->
  exists inner,
    mongoDriver.ListDatabases d
    = (Fail (Wrapped "failed to retrieve database names" inner), d1).
Proof.
  intros H1 H2 H3. eexists.
  unfold mongoDriver.ListDatabases, mongo.ListDatabaseNames.
  rewrite H1, H2. simpl. rewrite H3. reflexivity.
Qed.

Lemma list_databases_fails_on_a_name_that_is_no_pattern_witness :
  exists inner,
    mongoDriver.ListDatabases parenDriver
    = (Fail (Wrapped "failed to retrieve database names" inner), parenDriver).
Proof.
  apply (list_databases_fails_on_a_name_that_is_no_pattern parenDriver parenDriver
           "a(b" ["a(b"; "test"]); reflexivity.
Defined.

Lemma list_ascii_of_string_app (a b : string) :
  list_ascii_of_string (a ++ b)%string = list_ascii_of_string a ++ list_ascii_of_string b.
Proof. induction a as [|ch a IH]; simpl; [reflexivity|now rewrite IH]. Qed.

Lemma string_of_list_ascii_app (a b : list ascii) :
  string_of_list_ascii (a ++ b)
  = (string_of_list_ascii a ++ string_of_list_ascii b)%string.
Proof. induction a as [|ch a IH]; simpl; [reflexivity|now rewrite IH]. Qed.

Lemma contains_lists (sub s : string) :
  contains sub s <->
  exists before after,
    list_ascii_of_string s = before ++ list_ascii_of_string sub ++ after.
Proof.
  split.
  - intros [before [after ->]].
    exists (list_ascii_of_string before), (list_ascii_of_string after).
    now rewrite !list_ascii_of_string_app.
  - intros [before [after H]].
    exists (string_of_list_ascii before), (string_of_list_ascii after).
    rewrite <- (string_of_list_ascii_of_string s), H.
    rewrite !string_of_list_ascii_app, string_of_list_ascii_of_string. reflexivity.
Qed.

Lemma search_after_prefix (re : list (Regexp.atom * Regexp.quant)) (before s : list ascii) :
  Regexp.search re s = true -> Regexp.search re (before ++ s) = true.
Proof.
  intros H. induction before as [|ch before IH]; simpl.
  - exact H.
  - rewrite IH. apply orb_true_r.
Qed.

Lemma matchHere_literal_prefix (p s : list ascii) :
  Regexp.matchHere (map (fun c => (Regexp.Lit c, Regexp.One)) p) s = true ->
  exists after, s = p ++ after.
Proof.
  revert s. induction p as [|c p IH]; intros s H.
  - exists s. reflexivity.
  - destruct s as [|c' s']; simpl in H; [discriminate|].
    apply andb_true_iff in H. destruct H as [Hc Hrest].
    apply Ascii.eqb_eq in Hc. subst c'.
    destruct (IH s' Hrest) as [after ->]. exists after. reflexivity.
Qed.

Lemma search_literal_occurrence (p s : list ascii) :
  Regexp.search (map (fun c => (Regexp.Lit c, Regexp.One)) p) s = true <->
  exists before after, s = before ++ p ++ after.
Proof.
  split.
  - induction s as [|ch s IH]; simpl; intros H.
    + rewrite orb_false_r in H.
      destruct (matchHere_literal_prefix p [] H) as [after Ha].
      exists [], after. exact Ha.
    + apply orb_true_iff in H. destruct H as [H|H].
      * destruct (matchHere_literal_prefix p (ch :: s) H) as [after Ha].
        exists [], after. exact Ha.
      * destruct (IH H) as [before [after ->]]. exists (ch :: before), after. reflexivity.
  - intros [before [after ->]].
    apply search_after_prefix, search_of_matchHere, matchHere_literal.
Qed.

Lemma compile_literal (pattern : string) :
  literal pattern ->
  Regexp.compile pattern
  = Some (fun subject =>
            Regexp.search
              (map (fun c => (Regexp.Lit c, Regexp.One)) (list_ascii_of_string pattern))
              (list_ascii_of_string subject)).
Proof.
  intros H. unfold Regexp.compile, Regexp.parse.
  rewrite (tokens_literal _ H), items_literal. reflexivity.
Qed.

(** The engine of the samples reads a pattern of literal characters as the
    search for an occurrence of it. *)
Lemma compile_literal_contains (pattern : string) :
  literal pattern ->
  exists matches,
    Regexp.compile pattern = Some matches /\
    forall name, matches name = true <-> contains pattern name.
Proof.
  intros H. eexists. split; [apply compile_literal; exact H|].
  intros name. rewrite contains_lists. apply search_literal_occurrence.
Qed.

(** X12. When the server reads the name of the current database as the
    search for an occurrence of it among the names it holds (what an
    unanchored pattern of letters and digits stands for), available holds
    exactly the databases of the server whose names do not contain the
    current name: a database whose name contains it is left out beside the
    current one, and the current one is never listed. *)
Theorem literal_name_hides_the_names_containing_it (d d1 : mongoDriver.t) (db : string)
    (all : list string) (matches : string -> bool) :
  mongoDriver.getCurrentDatabase d = (Return db, d1) ->
  mongo.databaseNames (mongoDriver.c d1) = Return all ->
  mongo.regexCompile (mongoDriver.c d1) db = Some matches ->
  (forall name, In name all -> (matches name = true <-> contains db name)) ->
  exists available,
    mongoDriver.ListDatabases d = (Return (db, available), d1) /\
    (forall name, In name available <-> In name all /\ ~ contains db name) /\
    ~ In db available.
Proof.
  intros H1 H2 H3 Hm.
  exists (List.filter (fun name => negb (matches name)) all).
  assert (Hiff : forall name,
             In name (List.filter (fun name => negb (matches name)) all)
             <-> In name all /\ ~ contains db name).
  { intros name. rewrite filter_In, negb_true_iff.
    split; intros [Hin Hn]; (split; [exact Hin|]).
    - intros Hc. apply (Hm name Hin) in Hc. congruence.
    - destruct (matches name) eqn:E; [|reflexivity].
      exfalso. apply Hn. apply (Hm name Hin). exact E. }
  split; [now apply ListDatabases_filter|]. split; [exact Hiff|].
  intros Hin. apply Hiff in Hin. destruct Hin as [_ Hn].
  apply Hn. exists EmptyString, EmptyString. simpl.
  clear. induction db as [|ch db IH]; simpl; [reflexivity|now rewrite <- IH].
Qed.

Lemma literal_name_hides_the_names_containing_it_witness :
  exists available,
    mongoDriver.ListDatabases nestedNamesDriver
    = (Return ("test", available), nestedNamesDriver) /\
    (forall name, In name available <->
                  In name ["test"; "test2"; "mytest"; "prod"] /\ ~ contains "test" name) /\
    ~ In "test" available.
Proof.
  apply (literal_name_hides_the_names_containing_it nestedNamesDriver nestedNamesDriver
           "test" ["test"; "test2"; "mytest"; "prod"]
           (fun subject =>
              Regexp.search
                (map (fun c => (Regexp.Lit c, Regexp.One)) (list_ascii_of_string "test"))
                (list_ascii_of_string subject))).
  - reflexivity.
  - reflexivity.
  - reflexivity.
  - intros name _. rewrite contains_lists. apply search_literal_occurrence.
Defined.

Example nested_names_listing :
  fst (mongoDriver.ListDatabases nestedNamesDriver) = Return ("test", ["prod"]).
Proof. reflexivity. Qed.

(** ** What the envelope cannot encode *)















(** The errors on three values: the document with a date; an array where a
    Decimal128 comes before the date, and one where it comes after. *)
Example envelope_encode_errors :
  mongoResponse.GobEncode registry (newMongoResponse datedDocument)
  = Fail (Error "gob: type not registered for interface: primitive.DateTime") /\
  mongoResponse.GobEncode registry (newMongoResponse (A [Decimal128 0 0; DateTime 0]))
  = Fail (Error "gob: type primitive.Decimal128 has no exported fields") /\
  mongoResponse.GobEncode registry (newMongoResponse (A [DateTime 0; Decimal128 0 0]))
  = Fail (Error "gob: type not registered for interface: primitive.DateTime") /\
  mongoResponse.GobEncode registry (newMongoResponse (Decimal128 0 0))
  = Fail (Error "gob: type primitive.Decimal128 has no exported fields").
Proof. repeat split; reflexivity. Qed.

(** ** The DuckDB driver's Structure *)

Lemma structureLoop_first_cells (named : list (string * list any)) :
  forall fuel s w schema err,
    iter s = Buffer (map (fun p => Str (fst p) :: snd p) named) err ->
    List.length named < fuel ->
    exists s',
      duckDriver.structureLoop fuel s w schema
      = Some (Return (schema ++ map tableEntry (map fst named)), (s', w)).
Proof.
  induction named as [|[t others] rest IH]; intros fuel s w schema err Hit Hfuel;
    (destruct fuel as [|fuel]; [simpl in Hfuel; lia|]).
  - simpl. unfold HasNext. rewrite Hit. simpl.
    eexists. rewrite app_nil_r. reflexivity.
  - simpl in Hfuel. cbn [duckDriver.structureLoop]. unfold HasNext. rewrite Hit. cbn.
    destruct (IH fuel
                 (WithNextFunc
                    (Buffer (map (fun p => Str (fst p) :: snd p) rest) err)
                    (WithNextFunc
                       (Buffer ((Str t :: others)
                                  :: map (fun p => Str (fst p) :: snd p) rest) err) s))
                 w (schema ++ [tableEntry t]) err eq_refl ltac:(lia)) as [s' Hs'].
    exists s'. rewrite <- app_assoc in Hs'. exact Hs'.
Qed.

(** X14. The DuckDB driver's Structure reads the first cell of each row and
    nothing else: whatever cells follow it, the entries are those of the
    first cells, one per row, in order. *)
Theorem duck_structure_reads_first_cells (d : duckDriver.t) (w : World) (rows : sqlRows)
    (named : list (string * list any)) (fuel : nat) :
  connErr (duckDriver.c d) = None ->
  answer (duckDriver.c d) "SHOW TABLES;" = Return rows ->
  records rows = map (fun p => Str (fst p) :: snd p) named ->
  List.length named < fuel ->
  exists w',
    duckDriver.Structure fuel d w
    = Some (Return (map tableEntry (map fst named)), w').
Proof.
  intros H1 H2 H3 Hfuel. unfold duckDriver.Structure.
  rewrite (duckQuery_succeeds d "SHOW TABLES;" w rows H1 H2).
  match goal with |- context [duckDriver.structureLoop fuel ?s ?w' []] =>
    destruct (structureLoop_first_cells named fuel s w' [] (scanErr rows)) as [s' Hs'];
      [simpl; now rewrite H3|exact Hfuel|rewrite Hs']
  end.
  eexists. reflexivity.
Qed.

Lemma duck_structure_reads_first_cells_witness :
  exists w',
    duckDriver.Structure 3
      (sampleDuck [[Str "orders"; Bool false]; [Str "users"; Bool true; Int32 3]])
      emptyWorld
    = Some (Return (map tableEntry (map fst [("orders", [Bool false]);
                                              ("users", [Bool true; Int32 3])])), w').
Proof.
  apply (duck_structure_reads_first_cells
           (sampleDuck [[Str "orders"; Bool false]; [Str "users"; Bool true; Int32 3]])
           emptyWorld
           {| columns := ["name"];
              records := [[Str "orders"; Bool false]; [Str "users"; Bool true; Int32 3]];
              scanErr := None |}
           [("orders", [Bool false]); ("users", [Bool true; Int32 3])] 3).
  - reflexivity.
  - reflexivity.
  - reflexivity.
  - simpl. lia.
Defined.

(** X15. When the SHOW TABLES query fails, Structure returns that error and
    leaves no connection behind: the connection it acquired has been closed
    once and the pool's live set is as before the call. *)
Theorem duck_structure_failed_query_releases_connection (d : duckDriver.t) (w : World)
    (fuel : nat) (err : error) :
  wellFormed w ->
  connErr (duckDriver.c d) = None ->
  answer (duckDriver.c d) "SHOW TABLES;" = Fail err ->
  exists w',
    duckDriver.Structure fuel d w = Some (Fail err, w') /\
    live w' = live w /\ closeCount (fresh w) w' = 1.
Proof.
  intros Hwf H1 H2. destruct (fresh_not_closed w Hwf) as [Hcount Hlive].
  unfold duckDriver.Structure.
  rewrite (duckQuery_query_fails d "SHOW TABLES;" w err H1 H2).
  eexists. split; [reflexivity|]. split.
  - unfold conClose. simpl.
    destruct (Nat.eq_dec (fresh w) (fresh w)) as [_|n]; [|contradiction].
    now apply notin_remove.
  - rewrite closeCount_conClose. unfold closeCount in *. simpl. now rewrite Hcount.
Qed.

Lemma duck_structure_failed_query_releases_connection_witness :
  exists w',
    duckDriver.Structure 1 (failingDuck (Error "context canceled")) emptyWorld
    = Some (Fail (Error "context canceled"), w') /\
    live w' = [] /\ closeCount 0 w' = 1.
Proof.
  apply (duck_structure_failed_query_releases_connection
           (failingDuck (Error "context canceled")) emptyWorld 1
           (Error "context canceled")
           (fun con H => match H with
                         | or_introl F => False_ind _ F
                         | or_intror F => False_ind _ F
                         end)); reflexivity.
Defined.
